(** * NetSpect: port specification parsing, ping aggregation, TCP connect
      scanning and DNS answer formatting

    A shallow embedding of [netspect/cli.py], [netspect/core/discovery.py]
    and [netspect/core/dns_utils.py], followed by the properties of these
    functions.

    Conventions of the embedding.
    - Python text is a [string] of bytes; the primitives of [Module Py]
      follow CPython on ASCII text (what a port expression, a record type
      or a reply line is made of).
    - A Python function that prints, raises or returns is a computation in
      [M]: it yields the list of things it did, in order, and either a
      returned value or the exception that left it.
    - The operating system, the ICMP library and the DNS library are
      environments: functions that give the outcome of each call. *)

From Stdlib Require Import ZArith QArith String Ascii List Lia.
From Stdlib Require Import DecimalString DecimalPos.
From stdpp Require Import base gmap sets list strings sorting.

Open Scope string_scope.
Open Scope Z_scope.

(** ** Python primitives *)

Module Py.

(** The ASCII characters for which [str.isspace] holds: TAB, LF, VT, FF, CR,
    FS, GS, RS, US and the blank. *)
Definition isspace (c : ascii) : bool :=
  let n := N_of_ascii c in
  (((9 <=? n) && (n <=? 13)) || ((28 <=? n) && (n <=? 32)))%N.

Fixpoint lstrip (s : string) : string :=
  match s with
  | EmptyString => EmptyString
  | String c r => if isspace c then lstrip r else s
  end.

Fixpoint rstrip (s : string) : string :=
  match s with
  | EmptyString => EmptyString
  | String c r =>
      match rstrip r with
      | EmptyString => if isspace c then EmptyString else String c EmptyString
      | r' => String c r'
      end
  end.

(** [s.strip()] *)
Definition strip (s : string) : string := rstrip (lstrip s).

(** [s.split(sep)] for a one-character separator: no field is dropped, so
    the empty string gives one empty field. *)
Fixpoint split (sep : ascii) (s : string) : list string :=
  match s with
  | EmptyString => [EmptyString]
  | String c r =>
      if Ascii.eqb c sep then EmptyString :: split sep r
      else match split sep r with
           | h :: t => String c h :: t
           | [] => [String c EmptyString]
           end
  end.

(** [s.split(sep, 1)]: cut at the first separator only. *)
Fixpoint split1 (sep : ascii) (s : string) : list string :=
  match s with
  | EmptyString => [EmptyString]
  | String c r =>
      if Ascii.eqb c sep then [EmptyString; r]
      else match split1 sep r with
           | h :: t => String c h :: t
           | [] => [String c EmptyString]
           end
  end.

(** [c in s] for a one-character [c]. *)
Fixpoint contains (c : ascii) (s : string) : bool :=
  match s with
  | EmptyString => false
  | String d r => Ascii.eqb d c || contains c r
  end.

(** Truth value of a string: [not s] holds of the empty string only. *)
Definition is_empty (s : string) : bool :=
  match s with EmptyString => true | _ => false end.

Definition isdigit (c : ascii) : bool :=
  let n := N_of_ascii c in ((48 <=? n) && (n <=? 57))%N.

(** The digits of an integer literal: decimal digits, with single
    underscores allowed between two digits.  [after_digit] tells whether the
    previous character was a digit.  The result is the digits alone. *)
Fixpoint digit_groups (after_digit : bool) (s : string) : option string :=
  match s with
  | EmptyString => if after_digit then Some EmptyString else None
  | String c r =>
      if Ascii.eqb c "_" then
        if after_digit then digit_groups false r else None
      else if isdigit c then
        match digit_groups true r with
        | Some ds => Some (String c ds)
        | None => None
        end
      else None
  end.

(** [int(s)]: surrounding white space is ignored, then an optional sign and
    the digits; [None] stands for the [ValueError] of a text that is not an
    integer literal. *)
Definition int (s : string) : option Z :=
  let t := strip s in
  let '(negative, body) :=
    match t with
    | String "-" r => (true, r)
    | String "+" r => (false, r)
    | _ => (false, t)
    end in
  match digit_groups false body with
  | Some ds =>
      match NilEmpty.uint_of_string ds with
      | Some u => Some (if negative then - Z.of_uint u else Z.of_uint u)
      | None => None
      end
  | None => None
  end.

(** [str(n)], also what an f-string field [{n}] shows for an integer. *)
Definition str (n : Z) : string := NilZero.string_of_int (Z.to_int n).

(** [sep.join(l)] *)
Definition join (sep : string) (l : list string) : string := String.concat sep l.

Definition upper_char (c : ascii) : ascii :=
  let n := N_of_ascii c in
  if ((97 <=? n) && (n <=? 122))%N then ascii_of_N (n - 32) else c.

(** [s.upper()] *)
Fixpoint upper (s : string) : string :=
  match s with
  | EmptyString => EmptyString
  | String c r => String (upper_char c) (upper r)
  end.

(** [s.split()]: fields separated by runs of white space, none empty.
    [cur] is the field being read, if any. *)
Fixpoint split_ws_from (cur : option string) (s : string) : list string :=
  match s with
  | EmptyString => match cur with Some w => [w] | None => [] end
  | String c r =>
      if isspace c then
        match cur with
        | Some w => w :: split_ws_from None r
        | None => split_ws_from None r
        end
      else
        match cur with
        | Some w => split_ws_from (Some (w ++ String c EmptyString)) r
        | None => split_ws_from (Some (String c EmptyString)) r
        end
  end.

Definition split_ws (s : string) : list string := split_ws_from None s.

(** [s[:-1]] *)
Fixpoint drop_last (s : string) : string :=
  match s with
  | EmptyString => EmptyString
  | String c EmptyString => EmptyString
  | String c r => String c (drop_last r)
  end.

(** [f"{s:<w}"]: [s] padded with blanks on the right up to width [w]. *)
Definition ljust (w : nat) (s : string) : string :=
  s ++ string_of_list_ascii (repeat " "%char (w - String.length s)).

(** [s.startswith(c)] and [s.endswith(c)] for a one-character [c]. *)
Definition startswith (c : ascii) (s : string) : bool :=
  match s with
  | String d _ => Ascii.eqb d c
  | EmptyString => false
  end.

Fixpoint endswith (c : ascii) (s : string) : bool :=
  match s with
  | EmptyString => false
  | String d EmptyString => Ascii.eqb d c
  | String _ r => endswith c r
  end.

(** Well-formed UTF-8: [need] continuation bytes are still expected, the
    next of them within [lo..hi]. *)
Fixpoint utf8_from (need : nat) (lo hi : N) (s : string) : bool :=
  match s with
  | EmptyString => match need with O => true | S _ => false end
  | String c r =>
      let n := N_of_ascii c in
      match need with
      | S k => ((lo <=? n) && (n <=? hi))%N && utf8_from k 128 191 r
      | O =>
          if (n <=? 127)%N then utf8_from 0 0 0 r
          else if ((194 <=? n) && (n <=? 223))%N then utf8_from 1 128 191 r
          else if (n =? 224)%N then utf8_from 2 160 191 r
          else if (n =? 237)%N then utf8_from 2 128 159 r
          else if ((225 <=? n) && (n <=? 239))%N then utf8_from 2 128 191 r
          else if (n =? 240)%N then utf8_from 3 144 191 r
          else if ((241 <=? n) && (n <=? 243))%N then utf8_from 3 128 191 r
          else if (n =? 244)%N then utf8_from 3 128 143 r
          else false
      end
  end.

(** [b.decode('utf-8')]: text is kept in its UTF-8 form, so decoding checks
    the bytes and keeps them; [None] stands for [UnicodeDecodeError]. *)
Definition decode_utf8 (b : string) : option string :=
  if utf8_from 0 0 0 b then Some b else None.

Definition lower_char (c : ascii) : ascii :=
  let n := N_of_ascii c in
  if ((65 <=? n) && (n <=? 90))%N then ascii_of_N (n + 32) else c.

(** [s.lower()] *)
Fixpoint lower (s : string) : string :=
  match s with
  | EmptyString => EmptyString
  | String c r => String (lower_char c) (lower r)
  end.

End Py.

(** ** Exceptions, console output and the computation type *)

Inductive exn : Type :=
  | Exit (code : Z)                 (* typer.Exit(code=...) *)
  | BadParameter (message : string) (* typer.BadParameter *)
  | ValueError (message : string)
  | NameError (name : string)
  | IndexError
  | AttributeError (attribute : string)
  | ZeroDivisionError
  | UnicodeDecodeError
  | gaierror (message : string)     (* socket.gaierror *)
  | OSError (message : string)
  | NXDOMAIN                        (* dns.resolver.NXDOMAIN *)
  | NoAnswer                        (* dns.resolver.NoAnswer *)
  | Timeout                         (* dns.exception.Timeout *)
  | OtherError (message : string).  (* any other subclass of Exception *)

(** [str(e)], what an f-string field [{e}] shows. *)
Definition str_exn (e : exn) : string :=
  match e with
  | Exit code => Py.str code
  | BadParameter m | ValueError m | gaierror m | OSError m | OtherError m => m
  | NameError n => "name '" ++ n ++ "' is not defined"
  | IndexError => "list index out of range"
  | AttributeError a => "object has no attribute '" ++ a ++ "'"
  | ZeroDivisionError => "division by zero"
  | UnicodeDecodeError => "'utf-8' codec can't decode bytes"
  | NXDOMAIN => "The DNS query name does not exist"
  | NoAnswer => "The DNS response does not contain an answer to the question"
  | Timeout => "The DNS operation timed out"
  end.

(** Times are exact rationals; [float('inf')], at which [min_rtt] starts, is
    a value of its own. *)
Inductive float : Type :=
  | Finite (q : Q)
  | Infinity.

(** What a run does that can be seen from outside: the four message helpers
    of [netspect/utils/display.py] (the message without its markup), a plain
    [console.print], the lines of the ping report whose numbers are printed
    through a float format, the table shown by [display_table], and the calls
    to the network. *)
Inductive event : Type :=
  | Success (message : string)
  | Warning (message : string)
  | Error (message : string)
  | Info (message : string)
  | Print (message : string)
  | ReplyLine (source size : string) (rtt_ms : Q) (ttl : string)
  | PacketStats (sent received lost : Z) (loss_percent : Q)
  | RttStats (minimum : float) (maximum average : Q)
  | Table (title : string) (rows : list (string * string))
  | PingCall (target : string) (count timeout : Z)
  | Connect (ip : string) (port : Z)
  | Query (hostname rtype : string).

Inductive result (A : Type) : Type :=
  | Returned (a : A)
  | Raised (e : exn).
Arguments Returned {A} a.
Arguments Raised {A} e.

Definition M (A : Type) : Type := (list event * result A)%type.

Definition ret {A} (a : A) : M A := ([], Returned a).
Definition raise {A} (e : exn) : M A := ([], Raised e).
Definition emit (ev : event) : M unit := ([ev], Returned tt).

Definition bind {A B} (m : M A) (k : A -> M B) : M B :=
  match m with
  | (out, Returned a) => let '(out', r) := k a in ((out ++ out')%list, r)
  | (out, Raised e) => (out, Raised e)
  end.

(** [try: m  except ...: handler]: [handler e] is [Some h] when one of the
    [except] clauses matches [e], and [h] is then the body of that clause. *)
Definition try_except {A} (m : M A) (handler : exn -> option (M A)) : M A :=
  match m with
  | (out, Returned a) => (out, Returned a)
  | (out, Raised e) =>
      match handler e with
      | Some h => let '(out', r) := h in ((out ++ out')%list, r)
      | None => (out, Raised e)
      end
  end.

Declare Scope py_scope.
Delimit Scope py_scope with py.
Notation "'do' x <- m ; k" := (bind m (fun x => k))
  (at level 10, x name, m at level 100, k at level 200) : py_scope.
Notation "'run' m ; k" := (bind m (fun _ => k))
  (at level 10, m at level 100, k at level 200) : py_scope.
Open Scope py_scope.

Definition output {A} (m : M A) : list event := fst m.
Definition outcome {A} (m : M A) : result A := snd m.


Module Display.

Definition print_success (message : string) : M unit := emit (Success message).
Definition print_warning (message : string) : M unit := emit (Warning message).
Definition print_error (message : string) : M unit := emit (Error message).
Definition print_info (message : string) : M unit := emit (Info message).
Definition console_print (message : string) : M unit := emit (Print message).

End Display.


(** [display_table(data, title)] of [netspect/utils/display.py], for rows of
    the two columns "Record Type" and "Value". *)
Definition display_table (data : list (string * string)) (title : string) : M unit :=
  match data with
  | [] => Display.print_warning "No data to display."
  | _ => emit (Table title data)
  end.

(** [l[i]] *)
Definition item (l : list string) (i : nat) : M string :=
  match nth_error l i with
  | Some x => ret x
  | None => raise IndexError
  end.

(** [a / b] on numbers *)
Definition truediv (a b : Q) : M Q :=
  if Qeq_bool b 0 then raise ZeroDivisionError else ret (a / b)%Q.

Definition lift {A} (r : result A) : M A := ([], r).

(** The line feed of the messages that start with a backslash-n. *)
Definition nl : string := String (ascii_of_N 10) EmptyString.

(** Python tuples of integers and strings, as the scanner returns them. *)
Inductive value : Type :=
  | VInt (n : Z)
  | VStr (s : string).

Definition tuple : Type := list value.

(** ** netspect/core/discovery.py *)

Module Discovery.

(** [from netspect.utils.display import get_progress_bar, print_success,
    print_error, print_info, console] *)
Definition print_success := Display.print_success.
Definition print_error := Display.print_error.
Definition print_info := Display.print_info.
Definition console_print := Display.console_print.

(** [print_warning] is not among the names the module imports or defines:
    calling it looks up an unbound global. *)
Definition print_warning (message : string) : M unit :=
  raise (NameError "print_warning").

(** One element of the list [pythonping.ping] returns, with the attributes
    the function reads. *)
Record Response : Type := {
  success : bool;
  time_elapsed_ms : Q;
  message : string;
  error_message : string
}.

(** The network as the module sees it: the outcome of each library call.
    [pythonping.ping] and the two look-ups return or raise; [connect_ex]
    gives its error code, 0 for an accepted connection. *)
Record network : Type := {
  execute_ping : string -> Z -> Z -> bool -> result (list Response);
  gethostbyname : string -> result string;
  connect_ex : string -> Z -> Z;
  getservbyport : Z -> string -> result string
}.

Definition Qltb (a b : Q) : bool := negb (Qle_bool b a).

(** [min(a, b)] is [b] when [b < a] and [a] otherwise; [max(a, b)] is [b]
    when [b > a] and [a] otherwise. *)
Definition min_ (a : float) (b : Q) : float :=
  match a with
  | Infinity => Finite b
  | Finite x => if Qltb b x then Finite b else Finite x
  end.

Definition max_ (a b : Q) : Q := if Qltb a b then b else a.

Record ping_state : Type := {
  all_successful : bool;
  total_rtt : Q;
  successful_pings : Z;
  min_rtt : float;
  max_rtt : Q
}.

Definition ping_init : ping_state :=
  {| all_successful := true; total_rtt := 0; successful_pings := 0;
     min_rtt := Infinity; max_rtt := 0 |}.

(** The line printed for a reply: the third field of the message without its
    last character, the fourth field, the time, and what follows the equals
    sign in the fifth field. *)
Definition reply_line (response : Response) : M unit :=
  do source <- item (Py.split_ws (message response)) 2;
  do size <- item (Py.split_ws (message response)) 3;
  do field <- item (Py.split_ws (message response)) 4;
  do ttl <- item (Py.split "=" field) 1;
  emit (ReplyLine (Py.drop_last source) size (time_elapsed_ms response) ttl).

(** [for response in response_list: ...] *)
Fixpoint ping_loop (response_list : list Response) (st : ping_state) : M ping_state :=
  match response_list with
  | [] => ret st
  | response :: rest =>
      if success response then
        let rtt_ms := time_elapsed_ms response in
        run reply_line response;
        ping_loop rest
          {| all_successful := all_successful st;
             total_rtt := (total_rtt st + rtt_ms)%Q;
             successful_pings := successful_pings st + 1;
             min_rtt := min_ (min_rtt st) rtt_ms;
             max_rtt := max_ (max_rtt st) rtt_ms |}
      else
        run console_print ("[red]Request timed out or host unreachable: " ++
                           error_message response ++ "[/red]");
        ping_loop rest
          {| all_successful := false;
             total_rtt := total_rtt st;
             successful_pings := successful_pings st;
             min_rtt := min_rtt st;
             max_rtt := max_rtt st |}
  end.

Definition except_Exception {A} (h : exn -> M A) (e : exn) : option (M A) :=
  Some (h e).

Definition ping_host (net : network) (target : string) (count timeout : Z)
    (verbose : bool) : M bool :=
  run print_info ("Pinging " ++ target ++ " with " ++ Py.str count ++
                  " packets, timeout " ++ Py.str timeout ++ "s...");
  try_except
    (run emit (PingCall target count timeout);
     do response_list <- lift (execute_ping net target count timeout verbose);
     do st <- ping_loop response_list ping_init;
     if 0 <? successful_pings st then
       do avg_rtt <- truediv (total_rtt st) (inject_Z (successful_pings st));
       run print_success (nl ++ "Ping statistics for " ++ target ++ ":");
       do lost_ratio <- truediv (inject_Z (count - successful_pings st)) (inject_Z count);
       run emit (PacketStats count (successful_pings st)
                             (count - successful_pings st) (lost_ratio * 100)%Q);
       run console_print "Approximate round trip times in milli-seconds:";
       run emit (RttStats (min_rtt st) (max_rtt st) avg_rtt);
       ret true
     else
       run print_error (nl ++ "No successful pings to " ++ target ++ ".");
       ret false)
    (except_Exception (fun e =>
       run print_error ("Error pinging " ++ target ++ ": " ++ str_exn e);
       ret false)).

Record scan_state : Type := {
  open_ports : list (Z * string * string);
  closed_ports_count : Z
}.

(** [service_name = "unknown"], then the lookup inside a [try] whose two
    [except] clauses both [pass]. *)
Definition service_name (net : network) (port : Z) : string :=
  match getservbyport net port "tcp" with
  | Returned name => name
  | Raised _ => "unknown"
  end.

(** [for port in ports: ...]; the progress bar is not part of the model. *)
Fixpoint scan_loop (net : network) (target_ip : string) (ports : list Z)
    (st : scan_state) : M scan_state :=
  match ports with
  | [] => ret st
  | port :: rest =>
      run emit (Connect target_ip port);
      if connect_ex net target_ip port =? 0 then
        scan_loop net target_ip rest
          {| open_ports := (open_ports st ++ [(port, "open", service_name net port)])%list;
             closed_ports_count := closed_ports_count st |}
      else
        scan_loop net target_ip rest
          {| open_ports := open_ports st;
             closed_ports_count := closed_ports_count st + 1 |}
  end.

(** [for port, status, service in open_ports: console.print(...)] *)
Fixpoint print_open_ports (l : list (Z * string * string)) : M unit :=
  match l with
  | [] => ret tt
  | (port, status, service) :: rest =>
      run console_print ("  [bold green]Port " ++ Py.ljust 5 (Py.str port) ++
                         "[/bold green] (" ++ service ++ ") is " ++ status);
      print_open_ports rest
  end.

Definition scan_ports (net : network) (target : string) (ports : list Z)
    (timeout : Q) : M (list tuple) :=
  match gethostbyname net target with
  | Raised (gaierror _) =>
      run print_error ("Cannot resolve hostname: " ++ target ++
                       ". Please check the name or use an IP address.");
      ret []
  | Raised e =>
      run print_error ("An unexpected error occurred resolving hostname: " ++ str_exn e);
      ret []
  | Returned target_ip =>
      run print_info ("Scanning " ++ target ++ " (" ++ target_ip ++ ") for " ++
                      Py.str (Z.of_nat (length ports)) ++ " port(s)...");
      do st <- scan_loop net target_ip ports
                 {| open_ports := []; closed_ports_count := 0 |};
      run (match open_ports st with
           | _ :: _ =>
               run print_success (nl ++ "Open ports on " ++ target ++ " (" ++
                                  target_ip ++ "):");
               print_open_ports (open_ports st)
           | [] =>
               print_warning (nl ++ "No open ports found on " ++ target ++ " (" ++
                              target_ip ++ ") in the scanned range.")
           end);
      run print_info ("Summary: " ++ Py.str (Z.of_nat (length (open_ports st))) ++
                      " open, " ++ Py.str (closed_ports_count st) ++
                      " closed/filtered.");
      ret (map (fun '(p, s, _) => [VInt p; VStr s]) (open_ports st))
  end.

End Discovery.

(** ** netspect/core/dns_utils.py *)

Module DnsUtils.

(** [from netspect.utils.display import print_info, print_error, console,
    display_table] *)
Definition print_info := Display.print_info.
Definition print_error := Display.print_error.

(** [print_warning] is not among the names the module imports or defines. *)
Definition print_warning (message : string) : M unit :=
  raise (NameError "print_warning").

Definition SUPPORTED_RECORD_TYPES : list string :=
  ["A"; "AAAA"; "MX"; "NS"; "CNAME"; "TXT"; "SOA"; "SRV"].

(** A domain name of the DNS library: its labels in text form, the last one
    empty when the name is absolute. *)
Definition name : Type := list string.

Definition is_absolute (n : name) : bool :=
  match last n with
  | Some EmptyString => true
  | _ => false
  end.

(** [n.to_text(omit_final_dot=...)] of the DNS library. *)
Definition name_to_text (omit_final_dot : bool) (n : name) : string :=
  match n with
  | [] => "@"
  | [EmptyString] => "."
  | _ =>
      Py.join "." (if omit_final_dot && is_absolute n then removelast n else n)
  end.

(** The record data of an answer, with the attributes the resolver loop
    reads.  TXT segments are byte strings. *)
Inductive rdata : Type :=
  | A_record (address : string)
  | AAAA_record (address : string)
  | NS_record (target : name)
  | CNAME_record (target : name)
  | MX_record (preference : Z) (exchange : name)
  | SOA_record (mname rname : name) (serial : Z)
  | TXT_record (strings : list string)
  | SRV_record (priority weight port : Z) (target : name).

(** The DNS library: the outcome of [resolver.resolve(hostname, rtype)], and
    the text [rdata.to_text(omit_final_dot=...)] gives for a record. *)
Record resolver : Type := {
  resolve : string -> string -> result (list rdata);
  to_text : rdata -> bool -> string
}.

(** Attribute reads; a record without the attribute raises. *)
Definition preference (rd : rdata) : M Z :=
  match rd with
  | MX_record p _ => ret p
  | _ => raise (AttributeError "preference")
  end.

Definition exchange (rd : rdata) : M name :=
  match rd with
  | MX_record _ e => ret e
  | _ => raise (AttributeError "exchange")
  end.

Definition mname (rd : rdata) : M name :=
  match rd with
  | SOA_record m _ _ => ret m
  | _ => raise (AttributeError "mname")
  end.

Definition rname (rd : rdata) : M name :=
  match rd with
  | SOA_record _ r _ => ret r
  | _ => raise (AttributeError "rname")
  end.

Definition serial (rd : rdata) : M Z :=
  match rd with
  | SOA_record _ _ s => ret s
  | _ => raise (AttributeError "serial")
  end.

Definition strings (rd : rdata) : M (list string) :=
  match rd with
  | TXT_record l => ret l
  | _ => raise (AttributeError "strings")
  end.

Definition priority (rd : rdata) : M Z :=
  match rd with
  | SRV_record p _ _ _ => ret p
  | _ => raise (AttributeError "priority")
  end.

Definition weight (rd : rdata) : M Z :=
  match rd with
  | SRV_record _ w _ _ => ret w
  | _ => raise (AttributeError "weight")
  end.

Definition port (rd : rdata) : M Z :=
  match rd with
  | SRV_record _ _ p _ => ret p
  | _ => raise (AttributeError "port")
  end.

Definition target (rd : rdata) : M name :=
  match rd with
  | SRV_record _ _ _ t | NS_record t | CNAME_record t => ret t
  | _ => raise (AttributeError "target")
  end.

(** [txt_string.decode('utf-8') for txt_string in rdata.strings] *)
Fixpoint decode_all (l : list string) : M (list string) :=
  match l with
  | [] => ret []
  | b :: rest =>
      match Py.decode_utf8 b with
      | Some t => do ts <- decode_all rest; ret (t :: ts)
      | None => raise UnicodeDecodeError
      end
  end.

(** The string appended to [results[r_type]] for one answer: the chain of
    [if r_type.upper() == ...] inside the loop over the answers. *)
Definition format_answer (lib : resolver) (r_type : string) (rd : rdata) : M string :=
  if String.eqb (Py.upper r_type) "MX" then
    do p <- preference rd;
    do e <- exchange rd;
    ret ("Preference: " ++ Py.str p ++ ", Exchange: " ++ name_to_text true e)
  else if String.eqb (Py.upper r_type) "SOA" then
    do m <- mname rd;
    do r <- rname rd;
    do s <- serial rd;
    ret ("MNAME: " ++ name_to_text true m ++ ", RNAME: " ++ name_to_text true r ++
         ", Serial: " ++ Py.str s)
  else if String.eqb (Py.upper r_type) "TXT" then
    do l <- strings rd;
    do ts <- decode_all l;
    ret (Py.join " " ts)
  else if String.eqb (Py.upper r_type) "SRV" then
    do p <- priority rd;
    do w <- weight rd;
    do q <- port rd;
    do t <- target rd;
    ret ("Priority: " ++ Py.str p ++ ", Weight: " ++ Py.str w ++ ", Port: " ++
         Py.str q ++ ", Target: " ++ name_to_text true t)
  else
    ret (to_text lib rd true).

(** [results[r_type].append(s)]; every key used is one of [record_types],
    with which the dictionary starts. *)
Definition append (r_type s : string) (results : gmap string (list string))
    : gmap string (list string) :=
  alter (fun l => (l ++ [s])%list) r_type results.

(** [for rdata in answers: ...]: the answers formatted so far stay in
    [results] when a later one raises. *)
Fixpoint append_answers (lib : resolver) (r_type : string) (answers : list rdata)
    (results : gmap string (list string))
    : gmap string (list string) * result unit :=
  match answers with
  | [] => (results, Returned tt)
  | rd :: rest =>
      match outcome (format_answer lib r_type rd) with
      | Returned s => append_answers lib r_type rest (append r_type s results)
      | Raised e => (results, Raised e)
      end
  end.

(** The [try] statement of the loop body, for a supported record type. *)
Definition query (lib : resolver) (hostname r_type : string)
    (results : gmap string (list string)) : M (gmap string (list string)) :=
  run emit (Query hostname (Py.upper r_type));
  let '(results, r) :=
    match resolve lib hostname (Py.upper r_type) with
    | Returned answers => append_answers lib r_type answers results
    | Raised e => (results, Raised e)
    end in
  match r with
  | Returned _ => ret results
  | Raised NXDOMAIN =>
      run print_error ("Hostname " ++ hostname ++ " not found (NXDOMAIN) for type " ++
                       r_type ++ ".");
      ret (append r_type "NXDOMAIN" results)
  | Raised NoAnswer =>
      run print_warning ("No " ++ r_type ++ " records found for " ++ hostname ++ ".");
      ret (append r_type "No Answer" results)
  | Raised Timeout =>
      run print_error ("DNS query timed out for " ++ hostname ++ ", type " ++
                       r_type ++ ".");
      ret (append r_type "Timeout" results)
  | Raised e =>
      run print_error ("Error resolving " ++ hostname ++ " for type " ++ r_type ++
                       ": " ++ str_exn e);
      ret (append r_type ("Error: " ++ str_exn e) results)
  end.

(** [for r_type in record_types: ...] *)
Fixpoint query_all (lib : resolver) (hostname : string) (record_types : list string)
    (results : gmap string (list string)) : M (gmap string (list string)) :=
  match record_types with
  | [] => ret results
  | r_type :: rest =>
      if bool_decide (Py.upper r_type ∈ SUPPORTED_RECORD_TYPES) then
        do results' <- query lib hostname r_type results;
        query_all lib hostname rest results'
      else
        run print_error ("Unsupported record type: " ++ r_type ++ ". Skipping.");
        query_all lib hostname rest results
  end.

(** The keys of the dictionary in the order it yields them: each record type
    at its first occurrence. *)
Fixpoint keys (seen record_types : list string) : list string :=
  match record_types with
  | [] => []
  | t :: rest =>
      if bool_decide (t ∈ seen) then keys seen rest else t :: keys (t :: seen) rest
  end.

(** The rows gathered for the table. *)
Definition table_rows (record_types : list string)
    (results : gmap string (list string)) : list (string * string) :=
  flat_map
    (fun r_type =>
       match results !! r_type with
       | Some (v :: vs) => map (fun val => (Py.upper r_type, val)) (v :: vs)
       | _ => [(Py.upper r_type, "No data")]
       end)
    (keys [] record_types).

Definition resolve_hostname (lib : resolver) (hostname : string)
    (record_types : list string) : M (gmap string (list string)) :=
  let results : gmap string (list string) :=
    list_to_map (map (fun rtype => (rtype, [])) record_types) in
  run print_info ("Performing DNS lookup for " ++ hostname ++ ", types: " ++
                  Py.join ", " record_types ++ "...");
  do results <- query_all lib hostname record_types results;
  let table_data := table_rows record_types results in
  run (match table_data with
       | _ :: _ => display_table table_data ("DNS Records for " ++ hostname)
       | [] => print_warning ("No DNS information retrieved for " ++ hostname ++ ".")
       end);
  ret results.

(** [get_canonical_name(hostname)].  [gethostbyname_ex] is the outcome of
    [socket.gethostbyname_ex]: the canonical name, the aliases and the
    addresses, or an exception. *)
Definition get_canonical_name
    (gethostbyname_ex : string -> result (string * list string * list string))
    (hostname : string) : M (option string) :=
  match gethostbyname_ex hostname with
  | Returned (cname, _, _) =>
      if negb (String.eqb cname hostname) then ret (Some cname) else ret None
  | Raised _ => ret None
  end.

End DnsUtils.

(** ** netspect/core/interface_info.py *)

Module InterfaceInfo.

(** Address families of the entries [psutil.net_if_addrs] lists. *)
Inductive family : Type :=
  | AF_LINK
  | AF_INET
  | AF_INET6
  | AF_OTHER.

Definition family_eqb (a b : family) : bool :=
  match a, b with
  | AF_LINK, AF_LINK | AF_INET, AF_INET | AF_INET6, AF_INET6
  | AF_OTHER, AF_OTHER => true
  | _, _ => false
  end.

(** One address of an interface, with the attributes the function reads. *)
Record snicaddr : Type := {
  snic_family : family;
  address : string;
  netmask : string
}.

(** The dictionary built for one interface; its six keys are fixed. *)
Record iface_info : Type := {
  Interface : string;
  MAC_Address : string;
  IP_Address_IPv4 : string;
  Netmask_IPv4 : string;
  IP_Address_IPv6 : string;
  Status : string
}.

(** [psutil]: the addresses by interface, in the order the dictionary
    yields them, and whether each interface with statistics is up. *)
Record psutil : Type := {
  net_if_addrs : result (list (string * list snicaddr));
  net_if_stats : result (gmap string bool)
}.

(** What the function shows: a console message, or the table of
    interfaces with its title, its columns and one row per interface. *)
Inductive shown : Type :=
  | Console (ev : event)
  | InterfaceTable (title : string) (columns : list string) (rows : list (list string)).

(** The module imports [psutil], [typing] and three names of the display
    module; [socket] is not among its names, so [socket.AF_INET] and
    [socket.AF_INET6] look up an unbound global. *)
Definition socket_AF_INET : result family := Raised (NameError "socket").
Definition socket_AF_INET6 : result family := Raised (NameError "socket").

(** [for snic in snic_list: ...] *)
Fixpoint read_addresses (snic_list : list snicaddr) (info : iface_info)
    : result iface_info :=
  match snic_list with
  | [] => Returned info
  | snic :: rest =>
      if family_eqb (snic_family snic) AF_LINK then
        read_addresses rest
          {| Interface := Interface info; MAC_Address := address snic;
             IP_Address_IPv4 := IP_Address_IPv4 info;
             Netmask_IPv4 := Netmask_IPv4 info;
             IP_Address_IPv6 := IP_Address_IPv6 info; Status := Status info |}
      else
        match socket_AF_INET with
        | Raised e => Raised e
        | Returned af_inet =>
            if family_eqb (snic_family snic) af_inet then
              read_addresses rest
                {| Interface := Interface info; MAC_Address := MAC_Address info;
                   IP_Address_IPv4 := address snic;
                   Netmask_IPv4 := netmask snic;
                   IP_Address_IPv6 := IP_Address_IPv6 info; Status := Status info |}
            else
              match socket_AF_INET6 with
              | Raised e => Raised e
              | Returned af_inet6 =>
                  if family_eqb (snic_family snic) af_inet6 then
                    if Py.is_empty (IP_Address_IPv6 info) ||
                       negb (String.prefix "fe80" (IP_Address_IPv6 info))
                    then
                      read_addresses rest
                        {| Interface := Interface info;
                           MAC_Address := MAC_Address info;
                           IP_Address_IPv4 := IP_Address_IPv4 info;
                           Netmask_IPv4 := Netmask_IPv4 info;
                           IP_Address_IPv6 := hd "" (Py.split "%" (address snic));
                           Status := Status info |}
                    else read_addresses rest info
                  else read_addresses rest info
              end
        end
  end.

(** [for name, snic_list in addresses.items(): ...]: [ifaces_data] keeps the
    interfaces appended before an exception. *)
Fixpoint read_interfaces (addresses : list (string * list snicaddr))
    (stats : gmap string bool) (ifaces_data : list iface_info)
    : list iface_info * result unit :=
  match addresses with
  | [] => (ifaces_data, Returned tt)
  | (name, snic_list) :: rest =>
      let info :=
        {| Interface := name; MAC_Address := ""; IP_Address_IPv4 := "";
           Netmask_IPv4 := ""; IP_Address_IPv6 := "";
           Status := match (stats !! name : option bool) with
                     | Some isup => if isup then "Up" else "Down"
                     | None => "N/A"
                     end |} in
      match read_addresses snic_list info with
      | Returned info' => read_interfaces rest stats (ifaces_data ++ [info'])%list
      | Raised e => (ifaces_data, Raised e)
      end
  end.

Definition columns : list string :=
  ["Interface"; "Status"; "IP Address (IPv4)"; "Netmask (IPv4)";
   "IP Address (IPv6)"; "MAC Address"].

(** [row_data.get(col, "")] *)
Definition get (info : iface_info) (col : string) : string :=
  if String.eqb col "Interface" then Interface info
  else if String.eqb col "MAC Address" then MAC_Address info
  else if String.eqb col "IP Address (IPv4)" then IP_Address_IPv4 info
  else if String.eqb col "Netmask (IPv4)" then Netmask_IPv4 info
  else if String.eqb col "IP Address (IPv6)" then IP_Address_IPv6 info
  else if String.eqb col "Status" then Status info
  else "".

(** [display_table(data, title, columns)] of the display module. *)
Definition display_table (data : list iface_info) (title : string)
    (columns : list string) : list shown :=
  match data with
  | [] => [Console (Warning "No data to display.")]
  | _ => [InterfaceTable title columns (map (fun info => map (get info) columns) data)]
  end.

Definition get_interface_details (ps : psutil) : list shown * list iface_info :=
  let intro := Console (Info "Fetching local network interface information...") in
  let failed (e : exn) :=
    Console (Error ("Could not retrieve interface information: " ++ str_exn e)) in
  match net_if_addrs ps with
  | Raised e => ([intro; failed e], [])
  | Returned addresses =>
      match net_if_stats ps with
      | Raised e => ([intro; failed e], [])
      | Returned stats =>
          match read_interfaces addresses stats [] with
          | (ifaces_data, Raised e) => ([intro; failed e], ifaces_data)
          | (ifaces_data, Returned _) =>
              match ifaces_data with
              | _ :: _ =>
                  (intro :: display_table ifaces_data "Network Interfaces" columns,
                   ifaces_data)
              | [] =>
                  ([intro;
                    Console (Error "No network interfaces found or psutil could not retrieve them.")],
                   ifaces_data)
              end
          end
      end
  end.

End InterfaceInfo.

(** ** netspect/cli.py *)

Module Cli.
Import Display.

Definition DEFAULT_PORTS : list Z :=
  [21; 22; 23; 25; 53; 80; 110; 143; 443; 465; 587; 993; 995; 3306; 3389;
   5432; 5900; 8080; 8443].

Definition int (s : string) : M Z :=
  match Py.int s with
  | Some n => ret n
  | None => raise (ValueError ("invalid literal for int() with base 10: '" ++ s ++ "'"))
  end.

Definition except_ValueError {A} (h : M A) (e : exn) : option (M A) :=
  match e with ValueError _ => Some h | _ => None end.

(** The body of [for part in parts] for one segment that contains a dash. *)
Definition range_part (part : string) (ports : gset Z) : M (gset Z) :=
  match Py.split1 "-" part with
  | [start; end_] =>
      try_except
        (do start_port <- int start;
         do end_port <- int end_;
         if negb ((0 <? start_port) && (start_port <=? 65535) &&
                  (0 <? end_port) && (end_port <=? 65535) &&
                  (start_port <=? end_port))
         then raise (ValueError "Port range invalid.")
         else ret (ports ∪ list_to_set (seqZ start_port (end_port + 1 - start_port))))
        (except_ValueError
           (run print_error ("Invalid port range: " ++ part ++
                             ". Must be numbers between 1-65535.");
            raise (Exit 1)))
  | _ => raise (ValueError "not enough values to unpack (expected 2, got 1)")
  end.

(** The body of the loop for one segment without a dash. *)
Definition single_part (part : string) (ports : gset Z) : M (gset Z) :=
  try_except
    (do port_val <- int part;
     if negb ((0 <? port_val) && (port_val <=? 65535))
     then raise (ValueError "Port number invalid.")
     else ret (ports ∪ {[ port_val ]}))
    (except_ValueError
       (run print_error ("Invalid port number: " ++ part ++
                         ". Must be a number between 1-65535.");
        raise (Exit 1))).

(** [for part in parts: ...], with the set built so far. *)
Fixpoint parse_parts (parts : list string) (ports : gset Z) : M (gset Z) :=
  match parts with
  | [] => ret ports
  | part :: rest =>
      let part := Py.strip part in
      if Py.is_empty part then parse_parts rest ports
      else
        do ports' <- (if Py.contains "-" part then range_part part ports
                      else single_part part ports);
        parse_parts rest ports'
  end.

Definition _parse_ports (port_str : option string) : M (list Z) :=
  match port_str with
  | None | Some EmptyString => ret DEFAULT_PORTS
  | Some port_str =>
      do ports <- parse_parts (Py.split "," port_str) ∅;
      if bool_decide (ports = ∅) then
        run print_error "No valid ports specified.";
        raise (Exit 1)
      else ret (merge_sort Z.le (elements ports))
  end.

(** The callback of the [target] argument.  [ip_address h] tells whether
    [ipaddress.ip_address(h)] accepts [h]. *)
Definition _validate_host (ip_address : string -> bool) (hostname_or_ip : string)
    : M string :=
  if ip_address hostname_or_ip then ret hostname_or_ip
  else if Py.is_empty hostname_or_ip || Py.startswith "." hostname_or_ip ||
          Py.endswith "." hostname_or_ip || Py.contains " " hostname_or_ip
  then
    run print_error ("Invalid hostname or IP address: '" ++ hostname_or_ip ++ "'");
    raise (BadParameter ("'" ++ hostname_or_ip ++
                         "' is not a valid hostname or IP address."))
  else ret hostname_or_ip.



(** The [dns] command: the callback on the argument, then the body. *)
Definition dns (ip_address : string -> bool)
    (gethostbyname_ex : string -> result (string * list string * list string))
    (lib : DnsUtils.resolver) (hostname : string) (types : option (list string))
    : M unit :=
  do hostname <- _validate_host ip_address hostname;
  let types :=
    match types with
    | None | Some [] => ["A"; "AAAA"; "MX"]
    | Some types => types
    end in
  let valid_types :=
    map Py.upper
      (filter (fun t => Py.upper t ∈ DnsUtils.SUPPORTED_RECORD_TYPES) types) in
  let invalid_types :=
    filter (fun t => Py.upper t ∉ DnsUtils.SUPPORTED_RECORD_TYPES) types in
  run (match invalid_types with
       | _ :: _ =>
           run print_error ("Unsupported DNS record type(s): " ++
                            Py.join ", " invalid_types ++ ". Supported are: " ++
                            Py.join ", " DnsUtils.SUPPORTED_RECORD_TYPES);
           match valid_types with
           | [] => raise (Exit 1)
           | _ => console_print ("[yellow]Ignoring invalid types and proceeding with: " ++
                                 Py.join ", " valid_types ++ "[/yellow]")
           end
       | [] => ret tt
       end);
  run (match valid_types with
       | [] =>
           run print_error ("No valid DNS record types specified. Supported are: " ++
                            Py.join ", " DnsUtils.SUPPORTED_RECORD_TYPES);
           raise (Exit 1)
       | _ => ret tt
       end);
  run (if existsb (fun t => bool_decide (t ∈ valid_types)) ["A"; "AAAA"] then
         do cname <- DnsUtils.get_canonical_name gethostbyname_ex hostname;
         match cname with
         | Some (String c r as cname) =>
             if negb (String.eqb (Py.lower cname) (Py.lower hostname))
             then console_print ("[dim]" ++ hostname ++ " is an alias for [bold cyan]" ++
                                 cname ++ "[/bold cyan][/dim]")
             else ret tt
         | _ => ret tt
         end
       else ret tt);
  run DnsUtils.resolve_hostname lib hostname valid_types;
  ret tt.

(** The [iface] command. *)
Definition show_interfaces (ps : InterfaceInfo.psutil)
    : list InterfaceInfo.shown * result unit :=
  (fst (InterfaceInfo.get_interface_details ps), Returned tt).

End Cli.

(** ** Vocabulary of the properties *)

(** A port expression as the user means it: single ports and ranges. *)
Inductive segment : Type :=
  | Single (p : Z)
  | Range (a b : Z).

Definition in_range (p : Z) : Prop := 1 <= p <= 65535.

Definition valid_segment (g : segment) : Prop :=
  match g with
  | Single p => in_range p
  | Range a b => in_range a /\ in_range b /\ a <= b
  end.

(** The ports a segment asks for. *)
Definition covers (g : segment) (p : Z) : Prop :=
  match g with
  | Single q => p = q
  | Range a b => a <= p <= b
  end.

(** A segment and a whole expression written out in decimal. *)
Definition show_segment (g : segment) : string :=
  match g with
  | Single p => Py.str p
  | Range a b => Py.str a ++ "-" ++ Py.str b
  end.

Definition show_spec (l : list segment) : string :=
  Py.join "," (map show_segment l).

(** The loop body of the parser on a trimmed, non-empty segment. *)
Definition parse_part (part : string) (ports : gset Z) : M (gset Z) :=
  if Py.contains "-" part then Cli.range_part part ports
  else Cli.single_part part ports.




(** [all_chars P s]: every character of [s] satisfies [P]. *)
Fixpoint all_chars (P : ascii -> bool) (s : string) : bool :=
  match s with
  | EmptyString => true
  | String c r => P c && all_chars P r
  end.



(** The record returned for an open port, and the line printed for it. *)
Definition open_record (port : Z) : tuple := [VInt port; VStr "open"].

Definition open_port_line (service : string) (port : Z) : event :=
  Print ("  [bold green]Port " ++ Py.ljust 5 (Py.str port) ++
         "[/bold green] (" ++ service ++ ") is open").

Definition scanning_line (target target_ip : string) (ports : list Z) : event :=
  Info ("Scanning " ++ target ++ " (" ++ target_ip ++ ") for " ++
        Py.str (Z.of_nat (length ports)) ++ " port(s)...").

Definition summary_line (opened closed : Z) : event :=
  Info ("Summary: " ++ Py.str opened ++ " open, " ++ Py.str closed ++
        " closed/filtered.").

(** The ports of a list that accept, or do not accept, the connection. *)
Definition accepting (net : Discovery.network) (ip : string) (ports : list Z) : list Z :=
  filter (fun p => Discovery.connect_ex net ip p = 0) ports.

Definition refusing (net : Discovery.network) (ip : string) (ports : list Z) : list Z :=
  filter (fun p => Discovery.connect_ex net ip p <> 0) ports.

(** The message of the error printed when the target does not resolve. *)
Definition resolution_error (target : string) (e : exn) : string :=
  match e with
  | gaierror _ =>
      "Cannot resolve hostname: " ++ target ++
      ". Please check the name or use an IP address."
  | _ => "An unexpected error occurred resolving hostname: " ++ str_exn e
  end.

(** A network for the examples: [example.com] resolves and listens on port
    80 only, which the services table calls http; the host [closed.example]
    resolves and listens nowhere; no other name resolves.  Pings to
    [example.com] are answered three times out of four, with the reply text
    of the ICMP library; pings to any other host are never answered. *)
Definition reply (rtt_ms : Q) : Discovery.Response :=
  {| Discovery.success := true;
     Discovery.time_elapsed_ms := rtt_ms;
     Discovery.message := "Reply from 93.184.216.34, 29 bytes in 10.0ms";
     Discovery.error_message := "" |}.

Definition no_reply : Discovery.Response :=
  {| Discovery.success := false;
     Discovery.time_elapsed_ms := 2000;
     Discovery.message := "";
     Discovery.error_message := "No response" |}.

Definition sample_network : Discovery.network :=
  {| Discovery.execute_ping := fun target count _ _ =>
       if String.eqb target "example.com"
       then Returned [reply 10; reply 20; reply 30; no_reply]
       else Returned (repeat no_reply (Z.to_nat count));
     Discovery.gethostbyname := fun host =>
       if String.eqb host "example.com" then Returned "93.184.216.34"
       else if String.eqb host "closed.example" then Returned "192.0.2.7"
       else Raised (gaierror "[Errno -2] Name or service not known");
     Discovery.connect_ex := fun ip port =>
       if String.eqb ip "93.184.216.34" && (port =? 80) then 0 else 111;
     Discovery.getservbyport := fun port _ =>
       if port =? 80 then Returned "http"
       else Raised (OSError "port/proto not found") |}.

(** No text is an IP address literal here: every target is a host name. *)
Definition no_ip_literal (host : string) : bool := false.

(** The lines of a ping session. *)
Definition pinging_line (target : string) (count timeout : Z) : event :=
  Info ("Pinging " ++ target ++ " with " ++ Py.str count ++
        " packets, timeout " ++ Py.str timeout ++ "s...").


(** The events that report round-trip statistics. *)
Definition is_statistics (ev : event) : Prop :=
  match ev with
  | PacketStats _ _ _ _ | RttStats _ _ _ => True
  | _ => False
  end.

(** The round-trip times of the replies, in order. *)
Definition reply_times (responses : list Discovery.Response) : list Q :=
  map Discovery.time_elapsed_ms (filter (fun r => Discovery.success r = true) responses).



(** A reply whose message has the five fields the reply line reads, and a
    network on which three probes out of four are answered that way. *)
Definition readable_reply (rtt_ms : Q) : Discovery.Response :=
  {| Discovery.success := true;
     Discovery.time_elapsed_ms := rtt_ms;
     Discovery.message := "Reply from 93.184.216.34, 29 TTL=55";
     Discovery.error_message := "" |}.

Definition readable_network : Discovery.network :=
  {| Discovery.execute_ping := fun _ _ _ _ =>
       Returned [readable_reply 10; readable_reply 20; readable_reply 30; no_reply];
     Discovery.gethostbyname := Discovery.gethostbyname sample_network;
     Discovery.connect_ex := Discovery.connect_ex sample_network;
     Discovery.getservbyport := Discovery.getservbyport sample_network |}.

(** A DNS library for the examples: [example.com] has one MX record and
    two TXT records, no A record although the name exists, and nothing else
    can be asked; the text of a record is its name or address as the library
    prints it with the final dot left out. *)
Definition sample_resolver : DnsUtils.resolver :=
  {| DnsUtils.resolve := fun hostname rtype =>
       if String.eqb rtype "MX"
       then Returned [DnsUtils.MX_record 10 ["mail"; "example"; "com"; ""]]
       else if String.eqb rtype "TXT"
       then Returned [DnsUtils.TXT_record ["v=spf1"; "-all"]]
       else if String.eqb rtype "A" then Raised NoAnswer
       else Raised Timeout;
     DnsUtils.to_text := fun rd omit_final_dot =>
       match rd with
       | DnsUtils.A_record a | DnsUtils.AAAA_record a => a
       | DnsUtils.NS_record t | DnsUtils.CNAME_record t =>
           DnsUtils.name_to_text omit_final_dot t
       | _ => ""
       end |}.

(** The line that opens a DNS lookup. *)
Definition lookup_line (hostname : string) (record_types : list string) : event :=
  Info ("Performing DNS lookup for " ++ hostname ++ ", types: " ++
        Py.join ", " record_types ++ "...").

(** The connection attempts of a run, in order. *)
Definition probes (out : list event) : list (string * Z) :=
  flat_map (fun ev => match ev with Connect ip port => [(ip, port)] | _ => [] end) out.

(** The DNS queries of a run, in order. *)
Definition queries (out : list event) : list (string * string) :=
  flat_map (fun ev => match ev with Query h t => [(h, t)] | _ => [] end) out.



(** [results'] is [results] with [added] appended to the list of [t], every
    other list untouched. *)
Definition extended_by (t : string) (added : list string)
    (results results' : gmap string (list string)) : Prop :=
  results' !! t = (fun l => (l ++ added)%list) <$> (results !! t) /\
  forall k, k <> t -> results' !! k = results !! k.

(** The answers [strs] are what the loop stores for [answers]. *)
Definition formatted (lib : DnsUtils.resolver) (t : string)
    (answers : list DnsUtils.rdata) (strs : list string) : Prop :=
  Forall2 (fun rd s => outcome (DnsUtils.format_answer lib t rd) = Returned s)
          answers strs.

(** The sentinel stored for a query that raised [e]. *)
Definition sentinel (e : exn) : string :=
  match e with
  | NXDOMAIN => "NXDOMAIN"
  | NoAnswer => "No Answer"
  | Timeout => "Timeout"
  | _ => "Error: " ++ str_exn e
  end.


(** An interface all of whose addresses are link-layer addresses, and the
    dictionary built for it: its name, its status, and the address of its
    last entry as MAC address. *)
Definition link_only (entry : string * list InterfaceInfo.snicaddr) : Prop :=
  Forall (fun s => InterfaceInfo.snic_family s = InterfaceInfo.AF_LINK) (snd entry).

Definition status_of (stats : gmap string bool) (name : string) : string :=
  match stats !! name with
  | Some true => "Up"
  | Some false => "Down"
  | None => "N/A"
  end.

Definition link_info (stats : gmap string bool)
    (entry : string * list InterfaceInfo.snicaddr) : InterfaceInfo.iface_info :=
  {| InterfaceInfo.Interface := fst entry;
     InterfaceInfo.MAC_Address :=
       match last (snd entry) with
       | Some s => InterfaceInfo.address s
       | None => ""
       end;
     InterfaceInfo.IP_Address_IPv4 := "";
     InterfaceInfo.Netmask_IPv4 := "";
     InterfaceInfo.IP_Address_IPv6 := "";
     InterfaceInfo.Status := status_of stats (fst entry) |}.

(** The row of the table for an interface, in the order of the columns. *)
Definition table_row (info : InterfaceInfo.iface_info) : list string :=
  [InterfaceInfo.Interface info; InterfaceInfo.Status info;
   InterfaceInfo.IP_Address_IPv4 info; InterfaceInfo.Netmask_IPv4 info;
   InterfaceInfo.IP_Address_IPv6 info; InterfaceInfo.MAC_Address info].

(** A host for the examples: a loopback with a link-layer address only, then
    an Ethernet card with a link-layer address, to which an IPv4 address is
    added later. *)
Definition link_address (mac : string) : InterfaceInfo.snicaddr :=
  {| InterfaceInfo.snic_family := InterfaceInfo.AF_LINK;
     InterfaceInfo.address := mac;
     InterfaceInfo.netmask := "" |}.

Definition ipv4_address (ip mask : string) : InterfaceInfo.snicaddr :=
  {| InterfaceInfo.snic_family := InterfaceInfo.AF_INET;
     InterfaceInfo.address := ip;
     InterfaceInfo.netmask := mask |}.

Definition sample_stats : gmap string bool := <["lo" := true]> (<["eth0" := false]> ∅).

Definition link_psutil : InterfaceInfo.psutil :=
  {| InterfaceInfo.net_if_addrs :=
       Returned [("lo", [link_address "00:00:00:00:00:00"]);
                 ("eth0", [link_address "52:54:00:12:34:56"])];
     InterfaceInfo.net_if_stats := Returned sample_stats |}.

Definition sample_psutil : InterfaceInfo.psutil :=
  {| InterfaceInfo.net_if_addrs :=
       Returned [("lo", [link_address "00:00:00:00:00:00"]);
                 ("eth0", [link_address "52:54:00:12:34:56";
                           ipv4_address "10.0.0.2" "255.255.255.0"])];
     InterfaceInfo.net_if_stats := Returned sample_stats |}.

(** The line the dns command prints for an alias. *)
Definition alias_line (hostname cname : string) : event :=
  Print ("[dim]" ++ hostname ++ " is an alias for [bold cyan]" ++ cname ++
         "[/bold cyan][/dim]").

(** The record types the dns command works with: the default when none is
    given. *)
Definition requested_types (types : option (list string)) : list string :=
  match types with
  | Some (t :: ts) => t :: ts
  | _ => ["A"; "AAAA"; "MX"]
  end.

(** A canonical-name look-up that finds [www.example.com] to be an alias,
    and [EXAMPLE.com] to be the canonical spelling of [example.com]. *)
Definition sample_gethostbyname_ex (host : string)
    : result (string * list string * list string) :=
  if String.eqb host "www.example.com"
  then Returned ("example.com", ["www.example.com"], ["93.184.216.34"])
  else if String.eqb host "example.com"
  then Returned ("EXAMPLE.com", [], ["93.184.216.34"])
  else Raised (gaierror "[Errno -2] Name or service not known").

(** The sample network without a services table. *)
Definition no_services_network : Discovery.network :=
  {| Discovery.execute_ping := Discovery.execute_ping sample_network;
     Discovery.gethostbyname := Discovery.gethostbyname sample_network;
     Discovery.connect_ex := Discovery.connect_ex sample_network;
     Discovery.getservbyport := fun _ _ => Raised (OSError "port/proto not found") |}.

(** ** Facts about computations and about the Python primitives *)

(** A computation that starts by printing. *)
Lemma bind_emit {A} (ev : event) (k : unit -> M A) :
  bind (emit ev) k = (ev :: output (k tt), outcome (k tt)).
Proof. unfold bind, emit, output, outcome. destruct (k tt). reflexivity. Qed.

(** Case analysis on the eight bits of a character. *)
Ltac ascii_cases c := destruct c as [[|] [|] [|] [|] [|] [|] [|] [|]].

Section PyFacts.

Lemma all_chars_app P s t :
  all_chars P (s ++ t) = all_chars P s && all_chars P t.
Proof.
  induction s as [|c s IH]; simpl; [reflexivity|].
  rewrite IH. apply andb_assoc.
Qed.

Lemma all_chars_weaken (P Q : ascii -> bool) s :
  (forall c, P c = true -> Q c = true) ->
  all_chars P s = true -> all_chars Q s = true.
Proof.
  intros HPQ. induction s as [|c s IH]; simpl; [reflexivity|].
  intros [Hc Hs]%andb_true_iff. rewrite (HPQ _ Hc), (IH Hs). reflexivity.
Qed.

Lemma lstrip_no_space s :
  all_chars (fun c => negb (Py.isspace c)) s = true -> Py.lstrip s = s.
Proof.
  destruct s as [|c s]; simpl; [reflexivity|].
  intros [Hc _]%andb_true_iff. apply negb_true_iff in Hc. rewrite Hc. reflexivity.
Qed.

Lemma rstrip_no_space s :
  all_chars (fun c => negb (Py.isspace c)) s = true -> Py.rstrip s = s.
Proof.
  induction s as [|c s IH]; simpl; [reflexivity|].
  intros [Hc Hs]%andb_true_iff. apply negb_true_iff in Hc.
  rewrite (IH Hs). destruct s; [rewrite Hc|]; reflexivity.
Qed.

Lemma strip_no_space s :
  all_chars (fun c => negb (Py.isspace c)) s = true -> Py.strip s = s.
Proof.
  intros H. unfold Py.strip. rewrite (lstrip_no_space _ H). apply rstrip_no_space, H.
Qed.

Lemma lstrip_all_space s :
  all_chars Py.isspace s = true -> Py.lstrip s = "".
Proof.
  induction s as [|c s IH]; simpl; [reflexivity|].
  intros [Hc Hs]%andb_true_iff. rewrite Hc. apply IH, Hs.
Qed.

Lemma strip_all_space s :
  all_chars Py.isspace s = true -> Py.strip s = "".
Proof. intros H. unfold Py.strip. rewrite (lstrip_all_space _ H). reflexivity. Qed.

Lemma contains_all_chars c s :
  Py.contains c s = negb (all_chars (fun d => negb (Ascii.eqb d c)) s).
Proof.
  induction s as [|d s IH]; simpl; [reflexivity|].
  rewrite IH, negb_andb, negb_involutive. reflexivity.
Qed.

Lemma contains_app c s t :
  Py.contains c (s ++ t) = Py.contains c s || Py.contains c t.
Proof.
  induction s as [|d s IH]; simpl; [reflexivity|].
  rewrite IH. apply orb_assoc.
Qed.

(** Splitting at a separator that the first field does not contain. *)
Lemma split_field sep s t :
  Py.contains sep s = false ->
  Py.split sep (s ++ String sep t) = s :: Py.split sep t.
Proof.
  induction s as [|d s IH]; simpl.
  - intros _. rewrite Ascii.eqb_refl. reflexivity.
  - intros [Hd Hs]%orb_false_iff. rewrite Hd, (IH Hs). reflexivity.
Qed.

Lemma split_last_field sep s :
  Py.contains sep s = false -> Py.split sep s = [s].
Proof.
  induction s as [|d s IH]; simpl; [reflexivity|].
  intros [Hd Hs]%orb_false_iff. rewrite Hd, (IH Hs). reflexivity.
Qed.

Lemma split_join sep l :
  l <> [] ->
  Forall (fun s => Py.contains sep s = false) l ->
  Py.split sep (Py.join (String sep "") l) = l.
Proof.
  intros Hne Hl. induction Hl as [|s l Hs Hl IH]; [congruence|].
  destruct l as [|s' l].
  - simpl. apply split_last_field, Hs.
  - change (Py.join (String sep "") (s :: s' :: l))
      with (s ++ String sep (Py.join (String sep "") (s' :: l))).
    rewrite (split_field _ _ _ Hs), IH; [reflexivity|congruence].
Qed.

Lemma split1_field sep s t :
  Py.contains sep s = false ->
  Py.split1 sep (s ++ String sep t) = [s; t].
Proof.
  induction s as [|d s IH]; simpl.
  - intros _. rewrite Ascii.eqb_refl. reflexivity.
  - intros [Hd Hs]%orb_false_iff. rewrite Hd, (IH Hs). reflexivity.
Qed.

(** What [split1] gives when the separator occurs. *)
Lemma split1_contains sep s :
  Py.contains sep s = true ->
  exists a b, s = a ++ String sep b /\ Py.contains sep a = false /\
              Py.split1 sep s = [a; b].
Proof.
  induction s as [|d s IH]; simpl; [discriminate|].
  destruct (Ascii.eqb d sep) eqn:Hd; simpl.
  - intros _. apply Ascii.eqb_eq in Hd as ->. exists "", s. auto.
  - intros (a & b & -> & Ha & Hsplit)%IH. exists (String d a), b.
    simpl. rewrite Hd, Ha, Hsplit. auto.
Qed.

End PyFacts.

Section Decimal.

Lemma isdigit_not_space c : Py.isdigit c = true -> Py.isspace c = false.
Proof.
  ascii_cases c; vm_compute; congruence.
Qed.

Lemma isdigit_not_char c d :
  Py.isdigit c = true -> Py.isdigit d = false -> Ascii.eqb c d = false.
Proof.
  intros Hc Hd. destruct (Ascii.eqb c d) eqn:E; [|reflexivity].
  apply Ascii.eqb_eq in E. congruence.
Qed.

Lemma string_of_uint_digits d :
  all_chars Py.isdigit (NilEmpty.string_of_uint d) = true.
Proof. induction d; simpl; auto. Qed.

Lemma string_of_uint_nonempty d :
  d <> Decimal.Nil -> NilEmpty.string_of_uint d <> "".
Proof. destruct d; simpl; congruence. Qed.

(** The decimal text of a natural number: digits only, at least one, and
    read back as the number. *)
Lemma str_nonneg n :
  0 <= n ->
  exists u, Py.str n = NilEmpty.string_of_uint u /\ u <> Decimal.Nil /\
            Z.of_uint u = n.
Proof.
  intros Hn. destruct n as [|p|p]; [| |lia].
  - exists (Decimal.D0 Decimal.Nil). repeat split; congruence.
  - exists (Pos.to_uint p). unfold Py.str. simpl.
    pose proof (DecimalPos.Unsigned.to_uint_nonnil p) as Hnil.
    repeat split; [|assumption|].
    + unfold NilZero.string_of_uint. destruct (Pos.to_uint p); congruence.
    + unfold Z.of_uint. rewrite DecimalPos.Unsigned.of_to. reflexivity.
Qed.

Lemma str_digits n : 0 <= n -> all_chars Py.isdigit (Py.str n) = true.
Proof.
  intros (u & -> & Hu & Hv)%str_nonneg. apply string_of_uint_digits.
Qed.

Lemma str_nonempty n : 0 <= n -> Py.str n <> "".
Proof.
  intros (u & -> & Hu & Hv)%str_nonneg. apply string_of_uint_nonempty, Hu.
Qed.

Lemma digit_groups_digits s :
  all_chars Py.isdigit s = true ->
  forall after, s <> "" \/ after = true -> Py.digit_groups after s = Some s.
Proof.
  induction s as [|c s IH]; simpl.
  - intros _ after [H | ->]; congruence.
  - intros [Hc Hs]%andb_true_iff after _.
    rewrite (isdigit_not_char c "_" Hc eq_refl), Hc.
    rewrite (IH Hs true); auto.
Qed.

(** [int] on a text made of digits only. *)
Lemma int_digits s :
  all_chars Py.isdigit s = true -> s <> "" ->
  Py.int s = match NilEmpty.uint_of_string s with
             | Some u => Some (Z.of_uint u)
             | None => None
             end.
Proof.
  intros Hs Hne. unfold Py.int.
  rewrite strip_no_space
    by (eapply all_chars_weaken; [|exact Hs];
        intros c Hc; rewrite (isdigit_not_space c Hc); reflexivity).
  destruct s as [|c r]; [congruence|].
  assert (Hc : Py.isdigit c = true) by (simpl in Hs; apply andb_true_iff in Hs; tauto).
  ascii_cases c; try (vm_compute in Hc; discriminate);
    rewrite (digit_groups_digits _ Hs false) by (left; congruence); reflexivity.
Qed.

Lemma int_str n : 0 <= n -> Py.int (Py.str n) = Some n.
Proof.
  intros Hn. rewrite int_digits by auto using str_digits, str_nonempty.
  destruct (str_nonneg n Hn) as (u & -> & Hu & <-).
  rewrite NilEmpty.usu. reflexivity.
Qed.

End Decimal.

(** ** The port specification parser *)

Section ParsePorts.

Import Cli.

Lemma parse_parts_cons raw rest ports :
  parse_parts (raw :: rest) ports =
    if Py.is_empty (Py.strip raw) then parse_parts rest ports
    else bind (parse_part (Py.strip raw) ports) (parse_parts rest).
Proof. reflexivity. Qed.

Lemma in_range_test p :
  (0 <? p) && (p <=? 65535) = true <-> in_range p.
Proof. unfold in_range. rewrite andb_true_iff, Z.ltb_lt, Z.leb_le. lia. Qed.

Lemma single_part_ok part p ports :
  Py.int part = Some p -> in_range p ->
  single_part part ports = ([], Returned (ports ∪ {[ p ]})).
Proof.
  intros Hint Hp. unfold single_part, int. rewrite Hint. simpl.
  apply in_range_test in Hp. rewrite Hp. reflexivity.
Qed.

Lemma single_part_fails part ports :
  match Py.int part with Some p => ~ in_range p | None => True end ->
  single_part part ports =
    ([Error ("Invalid port number: " ++ part ++ ". Must be a number between 1-65535.")],
     Raised (Exit 1)).
Proof.
  intros H. unfold single_part, int. destruct (Py.int part) as [p|]; simpl.
  - destruct ((0 <? p) && (p <=? 65535)) eqn:E; [|reflexivity].
    apply in_range_test in E. contradiction.
  - reflexivity.
Qed.

Lemma range_test a b :
  (0 <? a) && (a <=? 65535) && (0 <? b) && (b <=? 65535) && (a <=? b) = true <->
  in_range a /\ in_range b /\ a <= b.
Proof. unfold in_range. rewrite !andb_true_iff, !Z.ltb_lt, !Z.leb_le. lia. Qed.

Lemma range_part_ok start end_ a b ports :
  Py.contains "-" start = false ->
  Py.int start = Some a -> Py.int end_ = Some b ->
  in_range a -> in_range b -> a <= b ->
  range_part (start ++ "-" ++ end_) ports =
    ([], Returned (ports ∪ list_to_set (seqZ a (b + 1 - a)))).
Proof.
  intros Hdash Ha Hb Hra Hrb Hab. unfold range_part.
  change (start ++ "-" ++ end_) with (start ++ String "-" end_).
  rewrite (split1_field _ _ _ Hdash). unfold int. rewrite Ha, Hb. simpl.
  assert (H : (0 <? a) && (a <=? 65535) && (0 <? b) && (b <=? 65535) && (a <=? b) = true)
    by (apply range_test; auto).
  rewrite H. reflexivity.
Qed.

Lemma range_part_fails start end_ ports :
  Py.contains "-" start = false ->
  match Py.int start, Py.int end_ with
  | Some a, Some b => ~ (in_range a /\ in_range b /\ a <= b)
  | _, _ => True
  end ->
  range_part (start ++ "-" ++ end_) ports =
    ([Error ("Invalid port range: " ++ (start ++ "-" ++ end_) ++
             ". Must be numbers between 1-65535.")],
     Raised (Exit 1)).
Proof.
  intros Hdash H. unfold range_part.
  change (start ++ "-" ++ end_) with (start ++ String "-" end_).
  rewrite (split1_field _ _ _ Hdash). unfold int.
  destruct (Py.int start) as [a|]; simpl; [|reflexivity].
  destruct (Py.int end_) as [b|]; simpl; [|reflexivity].
  destruct ((0 <? a) && (a <=? 65535) && (0 <? b) && (b <=? 65535) && (a <=? b)) eqn:E;
    [|reflexivity].
  apply range_test in E. contradiction.
Qed.



Lemma show_segment_chars g :
  valid_segment g ->
  all_chars (fun c => Py.isdigit c || Ascii.eqb c "-") (show_segment g) = true.
Proof.
  assert (Hd : forall n, 0 <= n ->
            all_chars (fun c => Py.isdigit c || Ascii.eqb c "-") (Py.str n) = true).
  { intros n Hn. eapply all_chars_weaken; [|apply str_digits, Hn].
    intros c ->. reflexivity. }
  destruct g as [p|a b]; simpl; unfold in_range.
  - intros Hp. apply Hd. lia.
  - intros (Ha & Hb & _).
    change (Py.str a ++ "-" ++ Py.str b) with (Py.str a ++ String "-" (Py.str b)).
    rewrite all_chars_app. simpl. rewrite !Hd by lia. reflexivity.
Qed.

Lemma digit_or_dash_not_space c :
  Py.isdigit c || Ascii.eqb c "-" = true -> negb (Py.isspace c) = true.
Proof.
  ascii_cases c; vm_compute; congruence.
Qed.

Lemma digit_or_dash_not_comma c :
  Py.isdigit c || Ascii.eqb c "-" = true -> negb (Ascii.eqb c ",") = true.
Proof.
  ascii_cases c; vm_compute; congruence.
Qed.

Lemma str_no_dash n : 0 <= n -> Py.contains "-" (Py.str n) = false.
Proof.
  intros Hn. rewrite contains_all_chars. apply negb_false_iff.
  eapply all_chars_weaken; [|apply str_digits, Hn].
  intros c Hc. rewrite (isdigit_not_char c "-" Hc eq_refl). reflexivity.
Qed.

(** A valid segment written in decimal is read back as the ports it covers. *)
Lemma parse_part_shown g ports :
  valid_segment g ->
  exists ports', parse_part (show_segment g) ports = ([], Returned ports') /\
                 forall p, p ∈ ports' <-> p ∈ ports \/ covers g p.
Proof.
  unfold parse_part. destruct g as [q|a b]; simpl; unfold in_range.
  - intros Hq. assert (Hq0 : 0 <= q) by lia.
    rewrite (str_no_dash q Hq0).
    rewrite (single_part_ok (Py.str q) q _ (int_str q Hq0) Hq).
    eexists. split; [reflexivity|]. intros p.
    rewrite elem_of_union, elem_of_singleton. tauto.
  - intros (Ha & Hb & Hab).
    change (Py.str a ++ "-" ++ Py.str b) with (Py.str a ++ String "-" (Py.str b)).
    rewrite contains_app. simpl. rewrite orb_true_r.
    change (Py.str a ++ String "-" (Py.str b)) with (Py.str a ++ "-" ++ Py.str b).
    rewrite (range_part_ok (Py.str a) (Py.str b) a b)
      by (try apply int_str; try apply str_no_dash; unfold in_range; lia).
    eexists. split; [reflexivity|]. intros p.
    rewrite elem_of_union, elem_of_list_to_set, elem_of_seqZ.
    split; (intros [Hp|Hp]; [left; assumption|right; lia]).
Qed.

Lemma parse_parts_shown segs ports :
  Forall valid_segment segs ->
  exists ports', parse_parts (map show_segment segs) ports = ([], Returned ports') /\
                 forall p, p ∈ ports' <-> p ∈ ports \/ Exists (fun g => covers g p) segs.
Proof.
  intros Hsegs. revert ports. induction Hsegs as [|g segs Hg Hsegs IH]; intros ports.
  - exists ports. split; [reflexivity|]. intros p. rewrite Exists_nil. tauto.
  - cbn [map]. rewrite parse_parts_cons.
    pose proof (show_segment_chars g Hg) as Hchars.
    rewrite strip_no_space
      by (eapply all_chars_weaken; [apply digit_or_dash_not_space|exact Hchars]).
    destruct (parse_part_shown g ports Hg) as (ports1 & Hrun & Hports1).
    assert (Hne : Py.is_empty (show_segment g) = false).
    { destruct (show_segment g) eqn:E; [|reflexivity].
      unfold parse_part in Hrun. simpl in Hrun. discriminate. }
    rewrite Hne, Hrun. simpl.
    destruct (IH ports1) as (ports2 & Hrun2 & Hports2).
    exists ports2. rewrite Hrun2. split; [reflexivity|].
    intros p. rewrite Hports2, Hports1, Exists_cons. tauto.
Qed.

Lemma show_spec_split segs :
  segs <> [] -> Forall valid_segment segs ->
  Py.split "," (show_spec segs) = map show_segment segs.
Proof.
  intros Hne Hsegs. unfold show_spec. apply split_join.
  - destruct segs; [congruence|discriminate].
  - apply Forall_map. eapply Forall_impl; [exact Hsegs|].
    intros g Hg. simpl. rewrite contains_all_chars. apply negb_false_iff.
    eapply all_chars_weaken; [apply digit_or_dash_not_comma|].
    apply show_segment_chars, Hg.
Qed.

Lemma sorted_nodup_strict (l : list Z) :
  StronglySorted Z.le l -> NoDup l -> StronglySorted Z.lt l.
Proof.
  induction 1 as [|x l Hl IH Hx]; intros Hnd; [constructor|].
  apply NoDup_cons in Hnd as [Hnotin Hnd]. constructor; [auto|].
  rewrite Forall_forall in Hx |- *. intros y Hy.
  assert (x <> y) by (intros ->; contradiction).
  specialize (Hx y Hy). lia.
Qed.

(** What [sorted(list(ports))] is. *)
Lemma sorted_elements (ports : gset Z) :
  let l := merge_sort Z.le (elements ports) in
  StronglySorted Z.lt l /\ NoDup l /\ forall p, p ∈ l <-> p ∈ ports.
Proof.
  intros l.
  assert (Hperm : l ≡ₚ elements ports) by apply merge_sort_Permutation.
  assert (Hnd : NoDup l) by (rewrite Hperm; apply NoDup_elements).
  split; [|split; [assumption|]].
  - apply sorted_nodup_strict; [|assumption].
    apply StronglySorted_merge_sort; apply _.
  - intros p. rewrite Hperm, elem_of_elements. tauto.
Qed.

(** The end of [_parse_ports], once the loop has run. *)
Lemma parse_ports_after_loop s ports :
  s <> "" ->
  parse_parts (Py.split "," s) ∅ = ([], Returned ports) ->
  _parse_ports (Some s) =
    if bool_decide (ports = ∅)
    then ([Error "No valid ports specified."], Raised (Exit 1))
    else ([], Returned (merge_sort Z.le (elements ports))).
Proof.
  intros Hne Hrun. destruct s as [|c r]; [congruence|].
  unfold _parse_ports. rewrite Hrun. simpl.
  destruct (bool_decide (ports = ∅)); reflexivity.
Qed.

(** C6. With no port expression (none at all, or the empty text) the parser
    returns the fixed list of 19 default ports.  On a comma-separated expression of single ports and
    ranges [a-b], every endpoint within 1..65535 and no range with its start
    above its end, it returns exactly the ports asked for as a strictly
    ascending list without duplicates; so "80,443,1000-1002" gives
    [80, 443, 1000, 1001, 1002] and "80,80,443" gives [80, 443]. *)
Theorem parse_ports_sorted_set :
  (_parse_ports None = ([], Returned DEFAULT_PORTS) /\
   _parse_ports (Some "") = ([], Returned DEFAULT_PORTS) /\
   length DEFAULT_PORTS = 19%nat) /\
  (forall segs, segs <> [] -> Forall valid_segment segs ->
     exists l, _parse_ports (Some (show_spec segs)) = ([], Returned l) /\
               StronglySorted Z.lt l /\ NoDup l /\
               forall p, p ∈ l <-> Exists (fun g => covers g p) segs) /\
  _parse_ports (Some "80,443,1000-1002") = ([], Returned [80; 443; 1000; 1001; 1002]) /\
  _parse_ports (Some "80,80,443") = ([], Returned [80; 443]).
Proof.
  split; [repeat split; reflexivity|]. split; [|split; vm_compute; reflexivity].
  intros segs Hne Hsegs.
  destruct (parse_parts_shown segs ∅ Hsegs) as (ports & Hrun & Hports).
  rewrite <- show_spec_split in Hrun by assumption.
  assert (Hshown : show_spec segs <> "").
  { intros E. rewrite E in Hrun. destruct segs as [|g segs]; [congruence|].
    pose proof (show_spec_split (g :: segs) Hne Hsegs) as Hsplit.
    rewrite E in Hsplit. simpl in Hsplit. injection Hsplit as Hg _.
    inversion Hsegs as [|? ? Hv _]; subst.
    destruct (parse_part_shown g ∅ Hv) as (? & Hp & _).
    rewrite <- Hg in Hp. unfold parse_part in Hp. simpl in Hp. discriminate. }
  rewrite (parse_ports_after_loop _ _ Hshown Hrun).
  assert (Hnonempty : ports <> ∅).
  { destruct segs as [|g segs]; [congruence|]. inversion Hsegs as [|? ? Hv _]; subst.
    assert (exists p, covers g p) as [p Hp].
    { unfold in_range in Hv. destruct g as [q|a b]; simpl; [exists q|exists a]; simpl in *; lia. }
    intros ->. apply (not_elem_of_empty (C:=gset Z) p). apply Hports. right. left. exact Hp. }
  rewrite bool_decide_eq_false_2 by assumption.
  destruct (sorted_elements ports) as (Hsorted & Hnd & Hmem).
  eexists. split; [reflexivity|]. repeat split; try assumption.
  - intros Hp. apply Hmem, Hports in Hp as [Hp|Hp]; [set_solver|assumption].
  - intros Hp. apply Hmem, Hports. right. assumption.
Qed.

Lemma parse_ports_sorted_set_witness :
  exists l, _parse_ports (Some (show_spec [Range 20 22; Single 80; Single 21])) =
              ([], Returned l) /\
            StronglySorted Z.lt l /\ NoDup l /\
            forall p, p ∈ l <->
              Exists (fun g => covers g p) [Range 20 22; Single 80; Single 21].
Proof.
  apply (proj1 (proj2 parse_ports_sorted_set)); [discriminate|].
  repeat constructor; unfold in_range; lia.
Defined.



Lemma split_blank_fields s :
  all_chars (fun c => Ascii.eqb c "," || Py.isspace c) s = true ->
  Forall (fun raw => Py.strip raw = "") (Py.split "," s).
Proof.
  intros Hs.
  assert (H : Forall (fun raw => all_chars Py.isspace raw = true) (Py.split "," s)).
  { induction s as [|d s IH]; simpl.
    - repeat constructor.
    - simpl in Hs. apply andb_true_iff in Hs as [Hd Hs]. specialize (IH Hs).
      destruct (Ascii.eqb d ",") eqn:E.
      + constructor; [reflexivity|exact IH].
      + simpl in Hd. destruct (Py.split "," s) as [|h t].
        * constructor; [simpl; rewrite Hd; reflexivity|constructor].
        * inversion IH; subst.
          constructor; [simpl; rewrite Hd; assumption|assumption]. }
  eapply Forall_impl; [exact H|]. intros raw. apply strip_all_space.
Qed.

Lemma parse_parts_blank parts ports :
  Forall (fun raw => Py.strip raw = "") parts ->
  parse_parts parts ports = ([], Returned ports).
Proof.
  induction 1 as [|raw parts Hraw _ IH]; [reflexivity|].
  rewrite parse_parts_cons, Hraw. exact IH.
Qed.

Lemma parse_parts_skips_blank parts ports :
  parse_parts parts ports =
  parse_parts (filter (fun raw => Py.strip raw <> "") parts) ports.
Proof.
  revert ports. induction parts as [|raw parts IH]; intros ports; [reflexivity|].
  rewrite filter_cons. destruct (decide (Py.strip raw <> "")) as [Hraw|Hraw].
  - rewrite !parse_parts_cons. destruct (Py.strip raw); [congruence|].
    simpl. destruct (parse_part _ ports) as [out [ports'|e]]; simpl; [|reflexivity].
    rewrite IH. reflexivity.
  - rewrite parse_parts_cons. destruct (Py.strip raw); [apply IH|].
    exfalso. apply Hraw. discriminate.
Qed.

(** C10. Segments that are empty once trimmed are passed over, they are not
    malformed: the loop gives the same result with and without them, so
    "80,,443" and "80,443," both give [80, 443].  An expression made of
    commas and white space only, such as ",,", is rejected with the error
    "No valid ports specified." and exit code 1, not with the error of a
    malformed segment. *)
Theorem parse_ports_blank_segments :
  (forall parts ports,
     parse_parts parts ports =
     parse_parts (filter (fun raw => Py.strip raw <> "") parts) ports) /\
  _parse_ports (Some "80,,443") = ([], Returned [80; 443]) /\
  _parse_ports (Some "80,443,") = ([], Returned [80; 443]) /\
  _parse_ports (Some ",,") = ([Error "No valid ports specified."], Raised (Exit 1)) /\
  (forall s, s <> "" ->
     all_chars (fun c => Ascii.eqb c "," || Py.isspace c) s = true ->
     _parse_ports (Some s) = ([Error "No valid ports specified."], Raised (Exit 1))).
Proof.
  split; [exact parse_parts_skips_blank|].
  do 3 (split; [vm_compute; reflexivity|]).
  intros s Hne Hs.
  rewrite (parse_ports_after_loop s ∅ Hne); [reflexivity|].
  apply parse_parts_blank, split_blank_fields, Hs.
Qed.

Lemma parse_ports_blank_segments_witness :
  _parse_ports (Some " , ,") = ([Error "No valid ports specified."], Raised (Exit 1)).
Proof.
  apply (proj2 (proj2 (proj2 (proj2 parse_ports_blank_segments))));
    [discriminate|reflexivity].
Defined.

End ParsePorts.

(** ** The port scanner *)

Section ScanPorts.

Import Discovery.

Variable net : network.

(** The loop probes every port once, in the order of the list, and sorts
    them into the open records and the closed count. *)
Lemma scan_loop_run ip ports st :
  scan_loop net ip ports st =
    (map (Connect ip) ports,
     Returned
       {| open_ports :=
            (open_ports st ++
             map (fun p => (p, "open", service_name net p)) (accepting net ip ports))%list;
          closed_ports_count :=
            closed_ports_count st + Z.of_nat (length (refusing net ip ports)) |}).
Proof.
  unfold accepting, refusing.
  revert st. induction ports as [|p ports IH]; intros st.
  - simpl. unfold ret. destruct st. simpl. rewrite app_nil_r, Z.add_0_r. reflexivity.
  - cbn [scan_loop]. rewrite bind_emit, !filter_cons.
    destruct (connect_ex net ip p =? 0) eqn:E.
    + apply Z.eqb_eq in E. rewrite IH. unfold output, outcome. cbn [fst snd map].
      rewrite decide_True by assumption.
      rewrite decide_False by (intros H; apply H; assumption).
      cbn [open_ports closed_ports_count map]. rewrite <- app_assoc. reflexivity.
    + apply Z.eqb_neq in E. rewrite IH. unfold output, outcome. cbn [fst snd map].
      rewrite decide_False by assumption.
      rewrite decide_True by assumption.
      cbn [open_ports closed_ports_count length].
      rewrite Nat2Z.inj_succ. do 3 f_equal. lia.
Qed.

Lemma print_open_ports_run (l : list Z) :
  print_open_ports (map (fun p => (p, "open", service_name net p)) l) =
    (map (fun p => open_port_line (service_name net p) p) l, Returned tt).
Proof.
  induction l as [|p l IH]; [reflexivity|].
  cbn [map print_open_ports]. unfold console_print, Display.console_print.
  rewrite bind_emit, IH. reflexivity.
Qed.


(** A whole scan of a resolvable target on which at least one port is open:
    the probes in list order, the report with one line per open port, the
    summary, and the returned pairs. *)
Lemma scan_ports_some_open target ports timeout ip :
  gethostbyname net target = Returned ip ->
  accepting net ip ports <> [] ->
  scan_ports net target ports timeout =
    ((scanning_line target ip ports :: map (Connect ip) ports) ++
     Success (nl ++ "Open ports on " ++ target ++ " (" ++ ip ++ "):") ::
     map (fun p => open_port_line (service_name net p) p) (accepting net ip ports) ++
     [summary_line (Z.of_nat (length (accepting net ip ports)))
                   (Z.of_nat (length (refusing net ip ports)))],
     Returned (map open_record (accepting net ip ports)))%list.
Proof.
  intros Hip Hopen. unfold scan_ports. rewrite Hip.
  unfold print_info, Display.print_info. rewrite bind_emit.
  rewrite scan_loop_run. cbn [bind open_ports closed_ports_count app].
  destruct (accepting net ip ports) as [|p l] eqn:E; [congruence|].
  cbn [map]. unfold print_success, Display.print_success. rewrite bind_emit.
  change ((p, "open", service_name net p) ::
          map (fun p0 => (p0, "open", service_name net p0)) l)
    with (map (fun p0 => (p0, "open", service_name net p0)) (p :: l)).
  rewrite print_open_ports_run. unfold output, outcome, scanning_line, summary_line, ret.
  cbn [fst snd bind emit]. rewrite !length_map, Z.add_0_l, app_nil_r.
  f_equal. rewrite map_map. reflexivity.
Qed.

(** A whole scan of a resolvable target on which no port is open. *)
Lemma scan_ports_none_open target ports timeout ip :
  gethostbyname net target = Returned ip ->
  accepting net ip ports = [] ->
  scan_ports net target ports timeout =
    (scanning_line target ip ports :: map (Connect ip) ports,
     Raised (NameError "print_warning")).
Proof.
  intros Hip Hopen. unfold scan_ports. rewrite Hip.
  unfold print_info, Display.print_info. rewrite bind_emit.
  rewrite scan_loop_run, Hopen. cbn [bind open_ports closed_ports_count app map].
  unfold output, outcome, print_warning, raise. cbn [fst snd bind].
  rewrite !app_nil_r. reflexivity.
Qed.

Lemma scan_ports_unresolved target ports timeout e :
  gethostbyname net target = Raised e ->
  scan_ports net target ports timeout =
    ([Error (resolution_error target e)], Returned []).
Proof.
  intros Hip. unfold scan_ports. rewrite Hip. destruct e; reflexivity.
Qed.



(** C3.  On a resolvable target none of whose ports accepts the connection,
    the scan probes every port once, in list order, and then leaves with
    NameError at the call of [print_warning]: it prints no summary and
    returns no result. *)
Theorem scan_ports_no_open_port_raises target ports timeout ip :
  gethostbyname net target = Returned ip ->
  Forall (fun p => connect_ex net ip p <> 0) ports ->
  scan_ports net target ports timeout =
    (scanning_line target ip ports :: map (Connect ip) ports,
     Raised (NameError "print_warning")).
Proof.
  intros Hip Hclosed. apply scan_ports_none_open; [assumption|].
  unfold accepting. induction Hclosed as [|p ports Hp _ IH]; [reflexivity|].
  rewrite filter_cons, decide_False by assumption. exact IH.
Qed.

End ScanPorts.





Lemma scan_ports_no_open_port_raises_witness :
  Discovery.scan_ports sample_network "closed.example" [22; 80; 443] (1 # 2) =
    ([Info "Scanning closed.example (192.0.2.7) for 3 port(s)...";
      Connect "192.0.2.7" 22; Connect "192.0.2.7" 80; Connect "192.0.2.7" 443],
     Raised (NameError "print_warning")).
Proof.
  apply (scan_ports_no_open_port_raises sample_network "closed.example" [22; 80; 443]
           (1 # 2) "192.0.2.7"); [reflexivity|].
  repeat constructor; vm_compute; discriminate.
Defined.

(** ** The reachability prober *)

Section PingHost.

Import Discovery.

Variable net : network.



End PingHost.


(** C8.  Four packets sent to [example.com], three of them answered in 10,
    20 and 30 ms with the reply text of the ICMP library: printing the first
    reply reads a field the text does not have, the exception ends the
    session, and the prober reports an error and returns false, without any
    statistics. *)
Theorem ping_host_reply_text_fails :
  Discovery.execute_ping sample_network "example.com" 4 2 false =
    Returned [reply 10; reply 20; reply 30; no_reply] /\
  Discovery.ping_host sample_network "example.com" 4 2 false =
    ([Info "Pinging example.com with 4 packets, timeout 2s...";
      PingCall "example.com" 4 2;
      Error "Error pinging example.com: list index out of range"],
     Returned false).
Proof. split; reflexivity. Qed.

Section PingStatistics.

Import Discovery.

Variable net : network.







Lemma truediv_nonzero (a : Q) (n : Z) :
  n <> 0 -> truediv a (inject_Z n) = ([], Returned (a / inject_Z n)%Q).
Proof.
  intros Hn. unfold truediv. destruct (Qeq_bool (inject_Z n) 0) eqn:E; [|reflexivity].
  apply Qeq_bool_eq in E. unfold Qeq in E. simpl in E. lia.
Qed.

(** The session once the loop has ended with at least one reply counted. *)
Lemma ping_host_run target count timeout verbose responses out st :
  execute_ping net target count timeout verbose = Returned responses ->
  ping_loop responses ping_init = (out, Returned st) ->
  0 < successful_pings st ->
  count <> 0 ->
  ping_host net target count timeout verbose =
    ((pinging_line target count timeout :: PingCall target count timeout :: out) ++
     [Success (nl ++ "Ping statistics for " ++ target ++ ":");
      PacketStats count (successful_pings st) (count - successful_pings st)
        (inject_Z (count - successful_pings st) / inject_Z count * 100)%Q;
      Print "Approximate round trip times in milli-seconds:";
      RttStats (min_rtt st) (max_rtt st)
        (total_rtt st / inject_Z (successful_pings st))%Q],
     Returned true)%list.
Proof.
  intros Hping Hloop Hn Hcount.
  unfold ping_host, print_info, Display.print_info. rewrite bind_emit, bind_emit.
  rewrite Hping. unfold lift. cbn [bind]. rewrite Hloop. cbn [bind].
  rewrite (proj2 (Z.ltb_lt 0 (successful_pings st)) Hn).
  rewrite truediv_nonzero by lia. cbn [bind].
  unfold print_success, Display.print_success. rewrite bind_emit.
  rewrite truediv_nonzero by assumption. cbn [bind]. rewrite bind_emit.
  unfold console_print, Display.console_print. rewrite bind_emit, bind_emit.
  unfold try_except, output, outcome, ret, pinging_line. cbn [fst snd app].
  reflexivity.
Qed.


End PingStatistics.

(** Four packets, three of them answered in 10, 20 and 30 ms with a message
    the reply line can read: loss 25 %, minimum 10, maximum 30, average 20,
    and the prober returns true. *)
Example ping_statistics_example :
  exists loss avg,
    Discovery.ping_host readable_network "example.com" 4 2 false =
      ([Info "Pinging example.com with 4 packets, timeout 2s...";
        PingCall "example.com" 4 2;
        ReplyLine "93.184.216.34" "29" 10 "55";
        ReplyLine "93.184.216.34" "29" 20 "55";
        ReplyLine "93.184.216.34" "29" 30 "55";
        Print "[red]Request timed out or host unreachable: No response[/red]";
        Success (nl ++ "Ping statistics for example.com:");
        PacketStats 4 3 1 loss;
        Print "Approximate round trip times in milli-seconds:";
        RttStats (Finite 10) 30 avg],
       Returned true) /\
    (loss == 25)%Q /\ (avg == 20)%Q.
Proof. eexists _, _. split; [vm_compute; reflexivity|]. split; reflexivity. Qed.

(** ** The DNS resolver *)

Section ResolveHostname.

Import DnsUtils.

Variable lib : resolver.

(** A query for a record type the name has no record of. *)
Lemma query_no_answer hostname r_type results :
  resolve lib hostname (Py.upper r_type) = Raised NoAnswer ->
  query lib hostname r_type results =
    ([Query hostname (Py.upper r_type)], Raised (NameError "print_warning")).
Proof. intros Hres. unfold query. rewrite bind_emit, Hres. reflexivity. Qed.

(** A query returns, or leaves with the NameError of [print_warning]. *)
Lemma query_returns_or_raises hostname r_type results :
  exists out,
    (exists results', query lib hostname r_type results = (out, Returned results')) \/
    query lib hostname r_type results = (out, Raised (NameError "print_warning")).
Proof.
  unfold query. rewrite bind_emit.
  destruct (resolve lib hostname (Py.upper r_type)) as [answers|e].
  - destruct (append_answers lib r_type answers results) as [results' [[]|e]].
    + eexists. left. eexists. reflexivity.
    + destruct e; eexists; try (left; eexists; reflexivity). right. reflexivity.
  - destruct e; eexists; try (left; eexists; reflexivity). right. reflexivity.
Qed.

Lemma query_all_no_answer hostname record_types results :
  Exists (fun r_type => Py.upper r_type ∈ SUPPORTED_RECORD_TYPES /\
                        resolve lib hostname (Py.upper r_type) = Raised NoAnswer)
         record_types ->
  outcome (query_all lib hostname record_types results) =
    Raised (NameError "print_warning").
Proof.
  intros Hex. revert results.
  induction record_types as [|r_type rest IH]; intros results;
    [inversion Hex|].
  cbn [query_all]. destruct (bool_decide (Py.upper r_type ∈ SUPPORTED_RECORD_TYPES)) eqn:Hsup.
  - destruct (query_returns_or_raises hostname r_type results) as (out & [(results' & Hq)|Hq]).
    + apply Exists_cons in Hex as [[_ Hres]|Hex].
      * rewrite (query_no_answer _ _ _ Hres) in Hq. discriminate.
      * rewrite Hq. cbn [bind]. specialize (IH Hex results').
        destruct (query_all lib hostname rest results'). exact IH.
    + rewrite Hq. reflexivity.
  - apply bool_decide_eq_false in Hsup.
    apply Exists_cons in Hex as [[Hin _]|Hex]; [contradiction|].
    unfold print_error, Display.print_error. rewrite bind_emit.
    apply (IH Hex results).
Qed.

(** C4.  When the name exists but has no record of a requested, supported
    type, the handler calls [print_warning], which the module does not know:
    NameError leaves [resolve_hostname].  Whichever of the requested types
    it is, nothing is returned to the caller; and when it is the first one,
    the run stops right after that query, so no "No Answer" entry is stored
    and the record types that come next are not queried. *)
Theorem resolve_hostname_no_answer_raises hostname :
  (forall record_types,
     Exists (fun r_type => Py.upper r_type ∈ SUPPORTED_RECORD_TYPES /\
                           resolve lib hostname (Py.upper r_type) = Raised NoAnswer)
            record_types ->
     outcome (resolve_hostname lib hostname record_types) =
       Raised (NameError "print_warning")) /\
  (forall r_type rest,
     Py.upper r_type ∈ SUPPORTED_RECORD_TYPES ->
     resolve lib hostname (Py.upper r_type) = Raised NoAnswer ->
     resolve_hostname lib hostname (r_type :: rest) =
       ([lookup_line hostname (r_type :: rest); Query hostname (Py.upper r_type)],
        Raised (NameError "print_warning"))).
Proof.
  split.
  - intros record_types Hex. unfold resolve_hostname, print_info, Display.print_info.
    rewrite bind_emit. unfold outcome at 1. cbn [snd].
    pose proof (query_all_no_answer hostname record_types
                  (list_to_map (map (fun rtype => (rtype, [])) record_types)) Hex) as H.
    destruct (query_all lib hostname record_types _) as [out r].
    unfold outcome in *. cbn [snd] in H. subst r. reflexivity.
  - intros r_type rest Hsup Hres.
    unfold resolve_hostname, print_info, Display.print_info.
    rewrite bind_emit. cbn [query_all].
    rewrite bool_decide_eq_true_2 by assumption.
    rewrite (query_no_answer _ _ _ Hres). reflexivity.
Qed.

(** The other outcomes of a query without answers: one sentinel is appended
    to the list of the record type, and the loop goes on. *)
Lemma query_sentinel hostname r_type results e :
  resolve lib hostname (Py.upper r_type) = Raised e ->
  e <> NoAnswer ->
  exists message,
    query lib hostname r_type results =
      ([Query hostname (Py.upper r_type); Error message],
       Returned (append r_type
                   match e with
                   | NXDOMAIN => "NXDOMAIN"
                   | Timeout => "Timeout"
                   | _ => "Error: " ++ str_exn e
                   end results)).
Proof.
  intros Hres Hne. unfold query. rewrite bind_emit, Hres.
  destruct e; try congruence; eexists; reflexivity.
Qed.




End ResolveHostname.

Lemma resolve_hostname_no_answer_raises_witness :
  DnsUtils.resolve_hostname sample_resolver "example.com" ["A"; "MX"] =
    ([Info "Performing DNS lookup for example.com, types: A, MX...";
      Query "example.com" "A"],
     Raised (NameError "print_warning")).
Proof.
  apply (proj2 (resolve_hostname_no_answer_raises sample_resolver "example.com")
           "A" ["MX"]); [|reflexivity].
  apply list_elem_of_In. left. reflexivity.
Defined.

(** The MX query made first succeeds and the lookup is lost all the same. *)
Example resolve_hostname_mx_then_a :
  DnsUtils.resolve_hostname sample_resolver "example.com" ["MX"; "A"] =
    ([Info "Performing DNS lookup for example.com, types: MX, A...";
      Query "example.com" "MX"; Query "example.com" "A"],
     Raised (NameError "print_warning")).
Proof. reflexivity. Qed.


(** ** More on the port specification parser *)

Section ParsePortsInvariants.

Import Cli.

Lemma parse_part_returned part ports out ports' :
  parse_part part ports = (out, Returned ports') ->
  out = [] /\ forall p, p ∈ ports' -> p ∈ ports \/ in_range p.
Proof.
  unfold parse_part. destruct (Py.contains "-" part) eqn:Hdash.
  - destruct (split1_contains _ _ Hdash) as (a & b & -> & Ha & _).
    change (a ++ String "-" b) with (a ++ "-" ++ b).
    destruct (Py.int a) as [x|] eqn:Hx; [destruct (Py.int b) as [y|] eqn:Hy|].
    + destruct (decide (in_range x /\ in_range y /\ x <= y)) as [(Hrx & Hry & Hxy)|Hbad].
      * rewrite (range_part_ok a b x y) by assumption. intros [= <- <-].
        split; [reflexivity|]. intros p.
        rewrite elem_of_union, elem_of_list_to_set, elem_of_seqZ.
        unfold in_range in *. intros [Hp|Hp]; [left; assumption|right; lia].
      * rewrite range_part_fails by (try assumption; rewrite Hx, Hy; assumption).
        discriminate.
    + rewrite range_part_fails by (try assumption; rewrite Hx, Hy; exact I). discriminate.
    + rewrite range_part_fails by (try assumption; rewrite Hx; exact I). discriminate.
  - destruct (Py.int part) as [q|] eqn:Hq.
    + destruct (decide (in_range q)) as [Hr|Hr].
      * rewrite (single_part_ok part q) by assumption. intros [= <- <-].
        split; [reflexivity|]. intros p.
        rewrite elem_of_union, elem_of_singleton.
        intros [Hp | ->]; [left|right]; assumption.
      * rewrite single_part_fails by (rewrite Hq; assumption). discriminate.
    + rewrite single_part_fails by (rewrite Hq; exact I). discriminate.
Qed.

Lemma parse_parts_returned parts ports out ports' :
  parse_parts parts ports = (out, Returned ports') ->
  out = [] /\ forall p, p ∈ ports' -> p ∈ ports \/ in_range p.
Proof.
  revert ports out. induction parts as [|raw rest IH]; intros ports out.
  - intros [= <- <-]. auto.
  - rewrite parse_parts_cons. destruct (Py.is_empty (Py.strip raw)); [apply IH|].
    destruct (parse_part (Py.strip raw) ports) as [out1 [ports1|e]] eqn:Hpart;
      [|discriminate].
    destruct (parse_part_returned _ _ _ _ Hpart) as [-> Hin1].
    cbn [bind]. destruct (parse_parts rest ports1) as [out2 r2] eqn:Hrest.
    intros [= <- ->]. destruct (IH _ _ Hrest) as [-> Hin2].
    split; [reflexivity|]. intros p Hp.
    destruct (Hin2 p Hp) as [Hp1|Hp1]; [apply Hin1, Hp1|right; exact Hp1].
Qed.

Lemma default_ports_invariant :
  StronglySorted Z.lt DEFAULT_PORTS /\ NoDup DEFAULT_PORTS /\
  Forall in_range DEFAULT_PORTS.
Proof.
  assert (Heq : DEFAULT_PORTS =
                merge_sort Z.le (elements (list_to_set DEFAULT_PORTS : gset Z)))
    by (vm_compute; reflexivity).
  destruct (sorted_elements (list_to_set DEFAULT_PORTS)) as (Hs & Hnd & _).
  rewrite <- Heq in Hs, Hnd. split; [exact Hs|]. split; [exact Hnd|].
  unfold DEFAULT_PORTS, in_range. repeat (constructor; [lia|]). constructor.
Qed.

(** Whatever the parser returns is a port set. *)
Lemma parse_ports_returned input out l :
  _parse_ports input = (out, Returned l) ->
  out = [] /\ l <> [] /\ StronglySorted Z.lt l /\ NoDup l /\ Forall in_range l.
Proof.
  intros Hrun. destruct default_ports_invariant as (Hd1 & Hd2 & Hd3).
  assert (Hdefault : input = None \/ input = Some "" ->
            out = [] /\ l <> [] /\ StronglySorted Z.lt l /\ NoDup l /\ Forall in_range l).
  { intros Hin. assert (Heq : _parse_ports input = ([], Returned DEFAULT_PORTS))
      by (destruct Hin as [-> | ->]; reflexivity).
    rewrite Heq in Hrun. injection Hrun as <- <-.
    repeat split; try assumption. discriminate. }
  destruct input as [[|c r]|]; auto.
  assert (Hne : String c r <> "") by discriminate.
  destruct (parse_parts (Py.split "," (String c r)) ∅) as [out1 [ports|e]] eqn:Hloop.
  - destruct (parse_parts_returned _ _ _ _ Hloop) as [-> Hin].
    rewrite (parse_ports_after_loop _ _ Hne Hloop) in Hrun.
    destruct (bool_decide (ports = ∅)) eqn:E; [discriminate|].
    apply bool_decide_eq_false in E. injection Hrun as <- <-.
    destruct (sorted_elements ports) as (Hsorted & Hnd & Hmem).
    split; [reflexivity|]. split.
    { intros Hnil. apply E. apply leibniz_equiv, elements_empty_iff.
      apply Permutation_nil_r.
      rewrite <- (merge_sort_Permutation Z.le (elements ports)), Hnil. reflexivity. }
    repeat split; try assumption.
    apply Forall_forall. intros p Hp. apply Hmem, Hin in Hp as [Hp|Hp]; [|exact Hp].
    apply not_elem_of_empty in Hp. contradiction.
  - unfold _parse_ports in Hrun. rewrite Hloop in Hrun. discriminate.
Qed.

(** X1.  Every list the parser returns, for the default as for any accepted
    expression, is strictly ascending, free of duplicates and made of ports
    within 1..65535; and a parse that returns prints nothing. *)
Theorem parse_ports_result_invariant input out l :
  _parse_ports input = (out, Returned l) ->
  out = [] /\ StronglySorted Z.lt l /\ NoDup l /\ Forall in_range l.
Proof.
  intros Hrun. destruct (parse_ports_returned _ _ _ Hrun) as (H1 & _ & H2 & H3 & H4).
  auto.
Qed.

Lemma parse_ports_result_invariant_witness :
  ([] : list event) = [] /\ StronglySorted Z.lt [1; 2; 3; 80] /\
  NoDup [1; 2; 3; 80] /\ Forall in_range [1; 2; 3; 80].
Proof.
  apply (parse_ports_result_invariant (Some " 80 , 1-3,2") [] [1; 2; 3; 80]).
  vm_compute. reflexivity.
Defined.




Lemma sorted_lt_le (l : list Z) : StronglySorted Z.lt l -> StronglySorted Z.le l.
Proof.
  induction 1 as [|x l _ IH Hx]; constructor; [assumption|].
  eapply Forall_impl; [exact Hx|]. intros y Hy. lia.
Qed.

(** The list returned for an expression written from segments. *)
Lemma parse_ports_shown_set segs :
  segs <> [] -> Forall valid_segment segs ->
  exists ports : gset Z,
    _parse_ports (Some (show_spec segs)) =
      ([], Returned (merge_sort Z.le (elements ports))) /\
    forall p, p ∈ ports <-> Exists (fun g => covers g p) segs.
Proof.
  intros Hne Hsegs.
  destruct (parse_parts_shown segs ∅ Hsegs) as (ports & Hrun & Hports).
  rewrite <- show_spec_split in Hrun by assumption.
  assert (Hnonempty : ports <> ∅).
  { destruct segs as [|g segs]; [congruence|]. inversion Hsegs as [|? ? Hv _]; subst.
    assert (exists p, covers g p) as [p Hp].
    { unfold in_range in Hv. destruct g as [q|a b]; simpl; [exists q|exists a];
        simpl in *; lia. }
    intros ->. apply (not_elem_of_empty (C:=gset Z) p). apply Hports. right. left. exact Hp. }
  assert (Hshown : show_spec segs <> "").
  { intros E. rewrite E in Hrun. simpl in Hrun. injection Hrun as <-.
    apply Hnonempty. reflexivity. }
  exists ports. rewrite (parse_ports_after_loop _ _ Hshown Hrun).
  rewrite bool_decide_eq_false_2 by assumption. split; [reflexivity|].
  intros p. rewrite Hports. split; [intros [Hp|Hp]|intros Hp; right; exact Hp].
  - apply not_elem_of_empty in Hp. contradiction.
  - exact Hp.
Qed.

(** X3.  Only the set of ports asked for matters: two expressions of valid
    singles and ranges that cover the same ports give the same list, whatever
    the order of their segments, their repetitions, and whether a port is
    written alone or inside a range. *)
Theorem parse_ports_same_cover segs1 segs2 :
  segs1 <> [] -> segs2 <> [] ->
  Forall valid_segment segs1 -> Forall valid_segment segs2 ->
  (forall p, Exists (fun g => covers g p) segs1 <-> Exists (fun g => covers g p) segs2) ->
  _parse_ports (Some (show_spec segs1)) = _parse_ports (Some (show_spec segs2)).
Proof.
  intros Hne1 Hne2 Hv1 Hv2 Hsame.
  destruct (parse_ports_shown_set segs1 Hne1 Hv1) as (ports1 & -> & Hp1).
  destruct (parse_ports_shown_set segs2 Hne2 Hv2) as (ports2 & -> & Hp2).
  assert (ports1 = ports2) as ->; [|reflexivity].
  apply set_eq. intros p. rewrite Hp1, Hp2. apply Hsame.
Qed.

Lemma parse_ports_same_cover_witness :
  _parse_ports (Some (show_spec [Single 22; Range 20 21; Single 21])) =
  _parse_ports (Some (show_spec [Range 20 22])).
Proof.
  apply parse_ports_same_cover; try discriminate.
  - repeat constructor; unfold in_range; lia.
  - repeat constructor; unfold in_range; lia.
  - intros p. rewrite !Exists_cons, !Exists_nil. simpl. lia.
Defined.

(** X4.  Round trip: the ports of a returned list, written in decimal and
    joined by commas, parse to the same list again. *)
Theorem parse_ports_reparse input out l :
  _parse_ports input = (out, Returned l) ->
  _parse_ports (Some (Py.join "," (map Py.str l))) = ([], Returned l).
Proof.
  intros Hrun.
  destruct (parse_ports_returned _ _ _ Hrun) as (_ & Hne & Hsorted & Hnd & Hrange).
  assert (Hshow : Py.join "," (map Py.str l) = show_spec (map Single l)).
  { unfold show_spec. rewrite map_map. reflexivity. }
  rewrite Hshow.
  destruct (parse_ports_shown_set (map Single l)) as (ports & -> & Hports).
  - destruct l; [congruence|discriminate].
  - apply Forall_map. exact Hrange.
  - do 2 f_equal.
    destruct (sorted_elements ports) as (Hsorted' & Hnd' & Hmem').
    apply (StronglySorted_unique Z.le).
    + apply sorted_lt_le, Hsorted'.
    + apply sorted_lt_le, Hsorted.
    + apply NoDup_Permutation; [assumption..|].
      intros p. rewrite Hmem', Hports, Exists_exists. split.
      * intros (g & Hg & Hcov). apply list_elem_of_In, in_map_iff in Hg as (q & <- & Hq).
        simpl in Hcov. subst. apply list_elem_of_In, Hq.
      * intros Hp. exists (Single p). split; [|reflexivity].
        apply list_elem_of_In, in_map, list_elem_of_In, Hp.
Qed.

Lemma parse_ports_reparse_witness :
  _parse_ports (Some (Py.join "," (map Py.str [20; 21; 22; 443]))) =
    ([], Returned [20; 21; 22; 443]).
Proof.
  apply (parse_ports_reparse (Some "443, 20-22 ,21") []). vm_compute. reflexivity.
Defined.

End ParsePortsInvariants.

(** ** More on the port scanner and on the commands *)

Section ScanExtras.

Import Discovery.

Lemma probes_app out1 out2 : probes (out1 ++ out2) = (probes out1 ++ probes out2)%list.
Proof. unfold probes. apply flat_map_app. Qed.

Lemma probes_connects ip ports : probes (map (Connect ip) ports) = map (pair ip) ports.
Proof. induction ports as [|p ports IH]; [reflexivity|]. simpl. rewrite IH. reflexivity. Qed.

Lemma probes_open_lines (net : network) ports :
  probes (map (fun p => open_port_line (service_name net p) p) ports) = [].
Proof. induction ports as [|p ports IH]; [reflexivity|exact IH]. Qed.

(** The connection attempts of a scan. *)
Lemma probes_of_scan (net : network) target ports timeout :
  probes (output (scan_ports net target ports timeout)) =
    match gethostbyname net target with
    | Returned ip => map (pair ip) ports
    | Raised _ => []
    end.
Proof.
  destruct (gethostbyname net target) as [ip|e] eqn:Hip.
  - destruct (accepting net ip ports) as [|p l] eqn:Hopen.
    + rewrite (scan_ports_none_open net _ _ _ _ Hip Hopen). unfold output. cbn [fst].
      apply probes_connects.
    + rewrite (scan_ports_some_open net target ports timeout ip Hip)
        by (rewrite Hopen; discriminate).
      unfold output. cbn [fst]. rewrite Hopen. cbn [app].
      change (probes (scanning_line target ip ports :: ?l)) with (probes l).
      rewrite probes_app, probes_connects.
      change (probes (Success ?m :: ?l)) with (probes l).
      rewrite probes_app, probes_open_lines. apply app_nil_r.
  - rewrite (scan_ports_unresolved net _ _ _ _ Hip). reflexivity.
Qed.



(** X7.  The services table has no say in the result: two networks that
    resolve the target alike and answer connections alike give the same
    outcome and the same connection attempts, whatever their service
    look-ups return or raise. *)
Theorem scan_ports_service_independent (net1 net2 : network) target ports timeout :
  gethostbyname net1 target = gethostbyname net2 target ->
  (forall ip port, connect_ex net1 ip port = connect_ex net2 ip port) ->
  outcome (scan_ports net1 target ports timeout) =
    outcome (scan_ports net2 target ports timeout) /\
  probes (output (scan_ports net1 target ports timeout)) =
    probes (output (scan_ports net2 target ports timeout)).
Proof.
  intros Hname Hconn. split; [|rewrite !probes_of_scan, Hname; reflexivity].
  destruct (gethostbyname net2 target) as [ip|e] eqn:Hip.
  - assert (Hacc : accepting net1 ip ports = accepting net2 ip ports).
    { unfold accepting. induction ports as [|p ports IH]; [reflexivity|].
      rewrite !filter_cons, IH, (Hconn ip p). reflexivity. }
    destruct (accepting net2 ip ports) as [|p l] eqn:Hopen.
    + rewrite (scan_ports_none_open net1 _ _ _ _ Hname Hacc),
              (scan_ports_none_open net2 _ _ _ _ Hip Hopen). reflexivity.
    + rewrite (scan_ports_some_open net1 target ports timeout ip Hname)
        by (rewrite Hacc; discriminate).
      rewrite (scan_ports_some_open net2 target ports timeout ip Hip)
        by (rewrite Hopen; discriminate).
      unfold outcome. cbn [snd]. rewrite Hacc, Hopen. reflexivity.
  - rewrite (scan_ports_unresolved net1 _ _ _ _ Hname),
            (scan_ports_unresolved net2 _ _ _ _ Hip). reflexivity.
Qed.

End ScanExtras.


Lemma scan_ports_service_independent_witness :
  outcome (Discovery.scan_ports sample_network "example.com" [22; 80; 443] (1 # 2)) =
    outcome (Discovery.scan_ports no_services_network "example.com" [22; 80; 443] (1 # 2)) /\
  probes (output (Discovery.scan_ports sample_network "example.com" [22; 80; 443] (1 # 2))) =
    probes (output (Discovery.scan_ports no_services_network "example.com"
                      [22; 80; 443] (1 # 2))).
Proof.
  apply scan_ports_service_independent; reflexivity.
Defined.

Section CommandExtras.

Import Discovery.








End CommandExtras.

(** ** More on the reachability prober *)

Section PingExtras.

Import Discovery.

Variable net : network.


Lemma ping_host_library_raises_eq target count timeout verbose e :
  execute_ping net target count timeout verbose = Raised e ->
  ping_host net target count timeout verbose =
    ([pinging_line target count timeout; PingCall target count timeout;
      Error ("Error pinging " ++ target ++ ": " ++ str_exn e)],
     Returned false).
Proof.
  intros Hping. unfold ping_host, print_info, Display.print_info.
  rewrite bind_emit, bind_emit, Hping. reflexivity.
Qed.


(** The loop counts the replies it has printed. *)
Lemma ping_loop_count responses st out st' :
  ping_loop responses st = (out, Returned st') ->
  successful_pings st' =
    successful_pings st + Z.of_nat (length (reply_times responses)).
Proof.
  revert st out. induction responses as [|r responses IH]; intros st out.
  - intros [= _ <-]. cbn. lia.
  - cbn [ping_loop]. unfold reply_times. rewrite filter_cons.
    destruct (success r) eqn:Hs.
    + rewrite decide_True by reflexivity. cbn [map length].
      fold (reply_times responses).
      destruct (reply_line r) as [o [[]|e]]; [|discriminate]. cbn [bind].
      match goal with |- context [ping_loop responses ?s] =>
        destruct (ping_loop responses s) as [o2 r2] eqn:Hloop end.
      intros [= _ ->]. rewrite (IH _ _ Hloop). cbn [successful_pings]. lia.
    + rewrite decide_False by discriminate. fold (reply_times responses).
      unfold console_print, Display.console_print. rewrite bind_emit.
      match goal with |- context [ping_loop responses ?s] =>
        destruct (ping_loop responses s) as [o2 r2] eqn:Hloop end.
      unfold outcome. cbn [snd]. intros [= _ ->].
      rewrite (IH _ _ Hloop). reflexivity.
Qed.

(** X12.  The prober returns true only after a session in which the library
    returned its responses, at least one of them was a reply, the requested
    count was not zero and the packet statistics were printed. *)
Theorem ping_host_true_means_reply target count timeout verbose :
  outcome (ping_host net target count timeout verbose) = Returned true ->
  exists responses,
    execute_ping net target count timeout verbose = Returned responses /\
    Exists (fun r => success r = true) responses /\
    count <> 0 /\
    Exists is_statistics (output (ping_host net target count timeout verbose)).
Proof.
  intros Htrue.
  destruct (execute_ping net target count timeout verbose) as [responses|e] eqn:Hping.
  2:{ rewrite (ping_host_library_raises_eq target count timeout verbose e Hping) in Htrue.
      discriminate. }
  exists responses. split; [reflexivity|].
  destruct (ping_loop responses ping_init) as [out [st|e]] eqn:Hloop.
  2:{ exfalso. revert Htrue. unfold ping_host, print_info, Display.print_info.
      rewrite bind_emit, bind_emit, Hping. unfold lift. cbn [bind]. rewrite Hloop.
      discriminate. }
  pose proof (ping_loop_count _ _ _ _ Hloop) as Hn.
  cbn [ping_init successful_pings] in Hn. rewrite Z.add_0_l in Hn.
  destruct (Z.ltb_spec 0 (successful_pings st)) as [Hpos|Hzero].
  2:{ exfalso. revert Htrue. unfold ping_host, print_info, Display.print_info.
      rewrite bind_emit, bind_emit, Hping. unfold lift. cbn [bind]. rewrite Hloop.
      cbn [bind]. rewrite (proj2 (Z.ltb_ge 0 (successful_pings st)) Hzero).
      discriminate. }
  assert (Hreply : Exists (fun r => success r = true) responses).
  { destruct (reply_times responses) as [|t ts] eqn:Htimes; [cbn in Hn; lia|].
    unfold reply_times in Htimes.
    destruct (filter (fun r => success r = true) responses) as [|r rs] eqn:Hf;
      [discriminate|].
    apply Exists_exists. exists r.
    assert (Hin : r ∈ filter (fun r => success r = true) responses)
      by (rewrite Hf; left).
    apply list_elem_of_filter in Hin as [Hs Hin]. auto. }
  split; [exact Hreply|].
  destruct (decide (count = 0)) as [->|Hcount].
  { exfalso. revert Htrue. unfold ping_host, print_info, Display.print_info.
    rewrite bind_emit, bind_emit, Hping. unfold lift. cbn [bind]. rewrite Hloop.
    cbn [bind]. rewrite (proj2 (Z.ltb_lt 0 (successful_pings st)) Hpos).
    rewrite truediv_nonzero by lia. cbn [bind].
    unfold print_success, Display.print_success. rewrite bind_emit.
    discriminate. }
  split; [exact Hcount|].
  rewrite (ping_host_run net target count timeout verbose responses out st Hping Hloop
             Hpos Hcount).
  unfold output. cbn [fst]. apply Exists_exists.
  eexists. split;
    [apply list_elem_of_In, in_or_app; right; right; left; reflexivity|exact I].
Qed.

End PingExtras.


Lemma ping_host_true_means_reply_witness :
  exists responses,
    Discovery.execute_ping readable_network "example.com" 4 2 false = Returned responses /\
    Exists (fun r => Discovery.success r = true) responses /\
    4 <> 0 /\
    Exists is_statistics
      (output (Discovery.ping_host readable_network "example.com" 4 2 false)).
Proof.
  apply (ping_host_true_means_reply readable_network "example.com" 4 2 false).
  vm_compute. reflexivity.
Defined.


(** ** More on the DNS resolver *)

Section DnsExtras.

Import DnsUtils.

Variable lib : resolver.

Lemma extended_by_nil t results : extended_by t [] results results.
Proof.
  split; [|reflexivity]. destruct (results !! t) as [l|]; simpl; [|reflexivity].
  rewrite app_nil_r. reflexivity.
Qed.

Lemma extended_by_trans t a1 a2 r1 r2 r3 :
  extended_by t a1 r1 r2 -> extended_by t a2 r2 r3 ->
  extended_by t (a1 ++ a2)%list r1 r3.
Proof.
  intros [H1 H1'] [H2 H2']. split.
  - rewrite H2, H1. destruct (r1 !! t) as [l|]; simpl; [|reflexivity].
    rewrite app_assoc. reflexivity.
  - intros k Hk. rewrite H2', H1' by assumption. reflexivity.
Qed.

Lemma append_extended t s results : extended_by t [s] results (append t s results).
Proof.
  unfold append. split.
  - rewrite lookup_alter_eq. reflexivity.
  - intros k Hk. apply lookup_alter_ne. congruence.
Qed.

(** The loop over the answers: it stores the formatted answers in order up
    to the first one that raises. *)
Lemma append_answers_spec r_type answers results :
  exists strs results',
    extended_by r_type strs results results' /\
    ((append_answers lib r_type answers results = (results', Returned tt) /\
      formatted lib r_type answers strs) \/
     (exists e good bad rest,
        append_answers lib r_type answers results = (results', Raised e) /\
        answers = (good ++ bad :: rest)%list /\
        formatted lib r_type good strs /\
        outcome (format_answer lib r_type bad) = Raised e)).
Proof.
  revert results. induction answers as [|rd answers IH]; intros results.
  - exists [], results. split; [apply extended_by_nil|]. left.
    split; [reflexivity|constructor].
  - cbn [append_answers].
    destruct (outcome (format_answer lib r_type rd)) as [s|e] eqn:Hrd.
    + destruct (IH (append r_type s results)) as (strs & results' & Hext & Hcases).
      exists (s :: strs), results'.
      split; [apply (extended_by_trans _ [s] strs _ (append r_type s results));
              [apply append_extended|exact Hext]|].
      destruct Hcases as [[Hrun Hfmt]|(e & good & bad & rest & Hrun & -> & Hfmt & Hbad)].
      * left. split; [exact Hrun|]. constructor; assumption.
      * right. exists e, (rd :: good), bad, rest.
        repeat split; try assumption. constructor; assumption.
    + exists [], results. split; [apply extended_by_nil|]. right.
      exists e, [], rd, answers. repeat split; try assumption. constructor.
Qed.

(** X13.  A query whose answers all format stores them, in the order the
    resolver gave them, at the end of the list of its record type, prints
    nothing but the query itself, and leaves every other list as it was. *)
Theorem query_stores_answers hostname r_type results answers strs :
  resolve lib hostname (Py.upper r_type) = Returned answers ->
  formatted lib r_type answers strs ->
  exists results',
    query lib hostname r_type results =
      ([Query hostname (Py.upper r_type)], Returned results') /\
    extended_by r_type strs results results'.
Proof.
  intros Hres Hfmt.
  destruct (append_answers_spec r_type answers results)
    as (strs' & results' & Hext & [[Hrun Hfmt']|(e & good & bad & rest & _ & -> & Hgood & Hbad)]).
  - assert (strs' = strs) as ->.
    { clear -Hfmt Hfmt'. revert strs' Hfmt'.
      induction Hfmt as [|rd s answers strs Hs _ IH]; intros strs' Hfmt';
        inversion Hfmt' as [|? s' ? strs'' Hs' Hrest]; subst; [reflexivity|].
      rewrite Hs in Hs'. injection Hs' as <-. f_equal. apply IH, Hrest. }
    exists results'. split; [|exact Hext].
    unfold query. rewrite bind_emit, Hres, Hrun. reflexivity.
  - exfalso. clear -Hfmt Hgood Hbad. revert strs Hfmt.
    induction Hgood as [|rd s good strs' Hs _ IH]; intros strs Hfmt;
      inversion Hfmt as [|? ? ? ? Hs' Hrest]; subst.
    + rewrite Hbad in Hs'. discriminate.
    + eapply IH, Hrest.
Qed.

(** X14.  A query that the resolver ends with NXDOMAIN, a timeout or any
    exception other than NoAnswer prints one error, stores exactly one
    sentinel ("NXDOMAIN", "Timeout" or "Error: " followed by the exception's
    text) at the end of the list of its record type, leaves every other list
    as it was, and returns, so that the loop goes on with the next type. *)
Theorem query_stores_sentinel hostname r_type results e :
  resolve lib hostname (Py.upper r_type) = Raised e ->
  e <> NoAnswer ->
  exists message results',
    query lib hostname r_type results =
      ([Query hostname (Py.upper r_type); Error message], Returned results') /\
    extended_by r_type [sentinel e] results results'.
Proof.
  intros Hres Hne. unfold query. rewrite bind_emit, Hres.
  destruct e; try congruence; eexists _, _; (split; [reflexivity|apply append_extended]).
Qed.




End DnsExtras.

Lemma query_stores_answers_witness :
  exists results',
    DnsUtils.query sample_resolver "example.com" "mx" (<["mx" := ["kept"]]> ∅) =
      ([Query "example.com" "MX"], Returned results') /\
    extended_by "mx" ["Preference: 10, Exchange: mail.example.com"]
      (<["mx" := ["kept"]]> ∅) results'.
Proof.
  apply (query_stores_answers sample_resolver "example.com" "mx" _
           [DnsUtils.MX_record 10 ["mail"; "example"; "com"; ""]]);
    [reflexivity|repeat constructor].
Defined.

Lemma query_stores_sentinel_witness :
  exists message results',
    DnsUtils.query sample_resolver "example.com" "NS" (<["NS" := []]> ∅) =
      ([Query "example.com" "NS"; Error message], Returned results') /\
    extended_by "NS" ["Timeout"] (<["NS" := []]> ∅) results'.
Proof.
  apply (query_stores_sentinel sample_resolver "example.com" "NS" _ Timeout);
    [reflexivity|discriminate].
Defined.


Section ResolveExtras.

Import DnsUtils.

Variable lib : resolver.











End ResolveExtras.



Section DnsCommand.

Import DnsUtils.

Variable lib : resolver.

Lemma in_output_bind {A B} (m : M A) (k : A -> M B) ev :
  In ev (output (bind m k)) ->
  In ev (output m) \/ exists a, outcome m = Returned a /\ In ev (output (k a)).
Proof.
  destruct m as [out [a|e]]; unfold bind, output, outcome; cbn [fst snd].
  - destruct (k a) as [out' r] eqn:Hk. cbn [fst]. intros [H|H]%in_app_or; [left; exact H|].
    right. exists a. rewrite Hk. auto.
  - auto.
Qed.

(** The only query of [query] is the one for its record type, upper-cased. *)
Lemma query_asks hostname r_type results h t :
  In (Query h t) (output (query lib hostname r_type results)) ->
  h = hostname /\ t = Py.upper r_type.
Proof.
  unfold query. rewrite bind_emit. unfold output at 1. cbn [fst].
  intros [[= <- <-]|Hin]; [auto|]. exfalso. revert Hin.
  destruct (resolve lib hostname (Py.upper r_type)) as [answers|e].
  - destruct (append_answers lib r_type answers results) as [mid [[]|e]];
      [|destruct e]; cbn; intros H;
      repeat (destruct H as [H|H]; try discriminate); exact H.
  - destruct e; cbn; intros H; repeat (destruct H as [H|H]; try discriminate); exact H.
Qed.

Lemma query_all_asks hostname record_types results h t :
  In (Query h t) (output (query_all lib hostname record_types results)) ->
  h = hostname /\ t ∈ SUPPORTED_RECORD_TYPES.
Proof.
  revert results. induction record_types as [|r_type rest IH]; intros results.
  - intros [].
  - cbn [query_all].
    destruct (bool_decide (Py.upper r_type ∈ SUPPORTED_RECORD_TYPES)) eqn:Hsup.
    + apply bool_decide_eq_true in Hsup.
      intros [Hin|(r1 & _ & Hin)]%in_output_bind.
      * apply query_asks in Hin as [-> ->]. auto.
      * apply (IH r1), Hin.
    + unfold print_error, Display.print_error. rewrite bind_emit.
      unfold output at 1. cbn [fst]. intros [H|Hin]; [discriminate|].
      apply (IH results), Hin.
Qed.

Lemma resolve_hostname_asks hostname record_types h t :
  In (Query h t) (output (resolve_hostname lib hostname record_types)) ->
  h = hostname /\ t ∈ SUPPORTED_RECORD_TYPES.
Proof.
  unfold resolve_hostname, print_info, Display.print_info. rewrite bind_emit.
  unfold output at 1. cbn [fst]. intros [H|Hin]; [discriminate|].
  apply in_output_bind in Hin as [Hin|(results & _ & Hin)];
    [apply (query_all_asks _ _ _ _ _ Hin)|].
  exfalso. apply in_output_bind in Hin as [Hin|(u & _ & Hin)]; [|destruct Hin].
  destruct (table_rows record_types results) as [|row rows];
    cbn in Hin; [exact Hin|].
  destruct Hin as [H|[]]. discriminate.
Qed.

(** X18.  Neither [resolve_hostname] nor the dns command ever asks the
    resolver about another name than the one it was given (the canonical
    name found on the side is never used for a query), nor for a record type
    outside the eight supported ones. *)
Theorem dns_queries_supported hostname :
  (forall record_types h t,
     In (Query h t) (output (resolve_hostname lib hostname record_types)) ->
     h = hostname /\ t ∈ SUPPORTED_RECORD_TYPES) /\
  (forall ip_address gethostbyname_ex types h t,
     In (Query h t) (output (Cli.dns ip_address gethostbyname_ex lib hostname types)) ->
     h = hostname /\ t ∈ SUPPORTED_RECORD_TYPES).
Proof.
  split; [apply resolve_hostname_asks|].
  intros ip_address gethostbyname_ex types h t. unfold Cli.dns.
  intros [Hin|(host & Hhost & Hin)]%in_output_bind.
  { exfalso. unfold Cli._validate_host in Hin.
    destruct (ip_address hostname); [destruct Hin|].
    destruct (_ || _); cbn in Hin; [|exact Hin].
    destruct Hin as [H|[]]. discriminate. }
  assert (host = hostname) as ->.
  { unfold Cli._validate_host in Hhost.
    destruct (ip_address hostname); [injection Hhost; auto|].
    destruct (_ || _); [discriminate|injection Hhost; auto]. }
  set (requested := match types with
                    | Some (t0 :: ts) => t0 :: ts
                    | _ => ["A"; "AAAA"; "MX"]
                    end) in *.
  assert (Hreq : match types with
                 | None | Some [] => ["A"; "AAAA"; "MX"]
                 | Some types0 => types0
                 end = requested) by (destruct types as [[|? ?]|]; reflexivity).
  rewrite Hreq in Hin. clear Hreq.
  apply in_output_bind in Hin as [Hin|(u1 & _ & Hin)].
  { exfalso. destruct (filter _ requested) as [|bad bads]; [destruct Hin|].
    apply in_output_bind in Hin as [Hin|(u & _ & Hin)];
      [destruct Hin as [H|[]]; discriminate|].
    destruct (map Py.upper _); cbn in Hin; [exact Hin|].
    destruct Hin as [H|[]]. discriminate. }
  apply in_output_bind in Hin as [Hin|(u2 & _ & Hin)].
  { exfalso. destruct (map Py.upper _); cbn in Hin; [|exact Hin].
    destruct Hin as [H|[]]. discriminate. }
  apply in_output_bind in Hin as [Hin|(u3 & _ & Hin)].
  { exfalso. destruct (existsb _ _); [|destruct Hin].
    apply in_output_bind in Hin as [Hin|(cname & _ & Hin)].
    - unfold get_canonical_name in Hin.
      destruct (gethostbyname_ex hostname) as [[[c ?] ?]|e]; [|destruct Hin].
      destruct (negb _); destruct Hin.
    - destruct cname as [[|c r]|]; try destruct Hin.
      destruct (negb _); cbn in Hin; [|exact Hin].
      destruct Hin as [H|[]]. discriminate. }
  apply in_output_bind in Hin as [Hin|(u4 & _ & Hin)]; [|destruct Hin].
  apply (resolve_hostname_asks _ _ _ _ Hin).
Qed.


End DnsCommand.

Lemma dns_queries_supported_witness :
  "example.com" = "example.com" /\ "MX" ∈ DnsUtils.SUPPORTED_RECORD_TYPES.
Proof.
  apply (proj2 (dns_queries_supported sample_resolver "example.com") no_ip_literal
           (fun _ => Raised (gaierror "unknown")) (Some ["bogus"; "mx"])).
  vm_compute. tauto.
Defined.


(** ** The interface listing *)

Section InterfaceExtras.

Import InterfaceInfo.

Lemma read_addresses_link snics info :
  Forall (fun s => snic_family s = AF_LINK) snics ->
  read_addresses snics info =
    Returned {| Interface := Interface info;
                MAC_Address := match last snics with
                               | Some s => address s
                               | None => MAC_Address info
                               end;
                IP_Address_IPv4 := IP_Address_IPv4 info;
                Netmask_IPv4 := Netmask_IPv4 info;
                IP_Address_IPv6 := IP_Address_IPv6 info;
                Status := Status info |}.
Proof.
  intros Hall. revert info. induction Hall as [|s snics Hs _ IH]; intros info.
  - destruct info. reflexivity.
  - cbn [read_addresses]. rewrite Hs. cbn [family_eqb]. rewrite IH.
    cbn [Interface MAC_Address IP_Address_IPv4 Netmask_IPv4 IP_Address_IPv6 Status].
    destruct snics as [|s' snics']; [reflexivity|].
    rewrite last_cons_cons.
    destruct (last (s' :: snics')) eqn:E; [reflexivity|].
    apply last_None in E. discriminate.
Qed.

Lemma read_addresses_other snics info :
  Exists (fun s => snic_family s <> AF_LINK) snics ->
  read_addresses snics info = Raised (NameError "socket").
Proof.
  intros Hex. revert info. induction snics as [|s snics IH]; intros info;
    [inversion Hex|].
  cbn [read_addresses]. destruct (snic_family s) eqn:Hs; cbn [family_eqb];
    try reflexivity.
  apply IH. apply Exists_cons in Hex as [H|H]; [congruence|exact H].
Qed.

Lemma read_interfaces_link stats before rest data :
  Forall link_only before ->
  read_interfaces (before ++ rest) stats data =
    read_interfaces rest stats (data ++ map (link_info stats) before)%list.
Proof.
  intros Hall. revert data. induction Hall as [|[name snics] before Hl _ IH]; intros data.
  - rewrite app_nil_r. reflexivity.
  - cbn [app read_interfaces map]. unfold link_only in Hl. cbn [snd] in Hl.
    rewrite (read_addresses_link _ _ Hl). rewrite IH, <- app_assoc.
    cbn [Interface MAC_Address IP_Address_IPv4 Netmask_IPv4 IP_Address_IPv6 Status app].
    unfold link_info, status_of. cbn [fst snd].
    replace (match (stats !! name : option bool) with
             | Some isup => if isup then "Up" else "Down"
             | None => "N/A"
             end)
      with (match stats !! name with
            | Some true => "Up"
            | Some false => "Down"
            | None => "N/A"
            end) by (destruct (stats !! name) as [[|]|]; reflexivity).
    reflexivity.
Qed.

(** X20.  The first interface that has an address of another family than
    the link layer (an IPv4 or IPv6 address, say) ends the listing: looking
    up [socket.AF_INET] raises NameError, which the function reports as
    "Could not retrieve interface information"; no table is shown, and the
    list returned holds only the interfaces that came before, which have
    link-layer addresses only. *)
Theorem interface_details_stop_at_network_address ps before name snics after stats :
  net_if_addrs ps = Returned (before ++ (name, snics) :: after)%list ->
  net_if_stats ps = Returned stats ->
  Forall link_only before ->
  Exists (fun s => snic_family s <> AF_LINK) snics ->
  get_interface_details ps =
    ([Console (Info "Fetching local network interface information...");
      Console (Error "Could not retrieve interface information: name 'socket' is not defined")],
     map (link_info stats) before).
Proof.
  intros Haddrs Hstats Hbefore Hother. unfold get_interface_details.
  rewrite Haddrs, Hstats, (read_interfaces_link _ _ _ _ Hbefore).
  cbn [read_interfaces app]. rewrite (read_addresses_other _ _ Hother). reflexivity.
Qed.

(** X21.  When every address of every interface is a link-layer address and
    there is at least one interface, the listing shows one table, with the
    columns Interface, Status, IPv4 address, IPv4 netmask, IPv6 address and
    MAC address in that order and one row per interface in the order psutil
    gave them; each row has the name, the status Up, Down or N/A (no
    statistics), empty address columns and the last link-layer address of the
    interface.  The same entries are returned. *)
Theorem interface_details_link_only ps addresses stats :
  net_if_addrs ps = Returned addresses ->
  net_if_stats ps = Returned stats ->
  addresses <> [] ->
  Forall link_only addresses ->
  get_interface_details ps =
    ([Console (Info "Fetching local network interface information...");
      InterfaceTable "Network Interfaces"
        ["Interface"; "Status"; "IP Address (IPv4)"; "Netmask (IPv4)";
         "IP Address (IPv6)"; "MAC Address"]
        (map (fun entry => table_row (link_info stats entry)) addresses)],
     map (link_info stats) addresses).
Proof.
  intros Haddrs Hstats Hne Hall. unfold get_interface_details.
  rewrite Haddrs, Hstats.
  rewrite <- (app_nil_r addresses) at 1.
  rewrite (read_interfaces_link _ _ _ _ Hall). cbn [read_interfaces app].
  destruct (map (link_info stats) addresses) as [|info infos] eqn:Hinfos;
    [destruct addresses; [congruence|discriminate]|].
  unfold display_table, columns. rewrite <- Hinfos, map_map. reflexivity.
Qed.

End InterfaceExtras.

Lemma interface_details_stop_at_network_address_witness :
  InterfaceInfo.get_interface_details sample_psutil =
    ([InterfaceInfo.Console (Info "Fetching local network interface information...");
      InterfaceInfo.Console
        (Error "Could not retrieve interface information: name 'socket' is not defined")],
     map (link_info sample_stats) [("lo", [link_address "00:00:00:00:00:00"])]).
Proof.
  apply (interface_details_stop_at_network_address sample_psutil
           [("lo", [link_address "00:00:00:00:00:00"])] "eth0"
           [link_address "52:54:00:12:34:56"; ipv4_address "10.0.0.2" "255.255.255.0"]
           [] sample_stats);
    [reflexivity|reflexivity|repeat constructor|].
  apply Exists_cons_tl, Exists_cons_hd. discriminate.
Defined.

Lemma interface_details_link_only_witness :
  InterfaceInfo.get_interface_details link_psutil =
    ([InterfaceInfo.Console (Info "Fetching local network interface information...");
      InterfaceInfo.InterfaceTable "Network Interfaces"
        ["Interface"; "Status"; "IP Address (IPv4)"; "Netmask (IPv4)";
         "IP Address (IPv6)"; "MAC Address"]
        (map (fun entry => table_row (link_info sample_stats entry))
           [("lo", [link_address "00:00:00:00:00:00"]);
            ("eth0", [link_address "52:54:00:12:34:56"])])],
     map (link_info sample_stats)
       [("lo", [link_address "00:00:00:00:00:00"]);
        ("eth0", [link_address "52:54:00:12:34:56"])]).
Proof.
  apply (interface_details_link_only link_psutil
           [("lo", [link_address "00:00:00:00:00:00"]);
            ("eth0", [link_address "52:54:00:12:34:56"])] sample_stats);
    [reflexivity|reflexivity|discriminate|repeat constructor].
Defined.

(** The table of the host without network addresses. *)
Example interface_table_example :
  fst (InterfaceInfo.get_interface_details link_psutil) =
    [InterfaceInfo.Console (Info "Fetching local network interface information...");
     InterfaceInfo.InterfaceTable "Network Interfaces"
       ["Interface"; "Status"; "IP Address (IPv4)"; "Netmask (IPv4)";
        "IP Address (IPv6)"; "MAC Address"]
       [["lo"; "Up"; ""; ""; ""; "00:00:00:00:00:00"];
        ["eth0"; "Down"; ""; ""; ""; "52:54:00:12:34:56"]]].
Proof. reflexivity. Qed.

Section DnsAlias.

Import DnsUtils.

Variable lib : resolver.

Lemma query_no_print hostname r_type results message :
  ~ In (Print message) (output (query lib hostname r_type results)).
Proof.
  unfold query. rewrite bind_emit. unfold output at 1. cbn [fst].
  intros [H|Hin]; [discriminate|]. revert Hin.
  destruct (resolve lib hostname (Py.upper r_type)) as [answers|e].
  - destruct (append_answers lib r_type answers results) as [mid [[]|e]];
      [|destruct e]; cbn; intros H;
      repeat (destruct H as [H|H]; try discriminate); exact H.
  - destruct e; cbn; intros H; repeat (destruct H as [H|H]; try discriminate); exact H.
Qed.

Lemma query_all_no_print hostname record_types results message :
  ~ In (Print message) (output (query_all lib hostname record_types results)).
Proof.
  revert results. induction record_types as [|r_type rest IH]; intros results.
  - intros [].
  - cbn [query_all].
    destruct (bool_decide (Py.upper r_type ∈ SUPPORTED_RECORD_TYPES)).
    + intros [Hin|(r1 & _ & Hin)]%in_output_bind.
      * apply (query_no_print _ _ _ _ Hin).
      * apply (IH r1), Hin.
    + unfold print_error, Display.print_error. rewrite bind_emit.
      unfold output at 1. cbn [fst]. intros [H|Hin]; [discriminate|].
      apply (IH results), Hin.
Qed.

Lemma resolve_hostname_no_print hostname record_types message :
  ~ In (Print message) (output (resolve_hostname lib hostname record_types)).
Proof.
  unfold resolve_hostname, print_info, Display.print_info. rewrite bind_emit.
  unfold output at 1. cbn [fst]. intros [H|Hin]; [discriminate|].
  apply in_output_bind in Hin as [Hin|(results & _ & Hin)];
    [apply (query_all_no_print _ _ _ _ Hin)|].
  apply in_output_bind in Hin as [Hin|(u & _ & Hin)]; [|destruct Hin].
  destruct (table_rows record_types results) as [|row rows];
    cbn in Hin; [exact Hin|].
  destruct Hin as [H|[]]. discriminate.
Qed.

Lemma in_output_bind_l {A B} (m : M A) (k : A -> M B) ev :
  In ev (output m) -> In ev (output (bind m k)).
Proof.
  destruct m as [out [a|e]]; unfold bind, output; cbn [fst]; [|auto].
  destruct (k a). cbn [fst]. intros H. apply in_or_app. left. exact H.
Qed.

Lemma in_output_bind_r {A B} (m : M A) (k : A -> M B) a ev :
  outcome m = Returned a -> In ev (output (k a)) -> In ev (output (bind m k)).
Proof.
  destruct m as [out r]. unfold outcome. cbn [snd]. intros ->.
  unfold bind, output. destruct (k a). cbn [fst]. intros H. apply in_or_app. right. exact H.
Qed.

Lemma bind_silent {A B} (a : A) (k : A -> M B) : bind ([], Returned a) k = k a.
Proof. unfold bind. destruct (k a). reflexivity. Qed.

Lemma valid_types_address types :
  existsb (fun t => bool_decide
             (t ∈ map Py.upper
                    (filter (fun t => Py.upper t ∈ SUPPORTED_RECORD_TYPES) types)))
          ["A"; "AAAA"] = true <->
  Exists (fun t => Py.upper t = "A" \/ Py.upper t = "AAAA") types.
Proof.
  cbn [existsb]. rewrite orb_false_r, orb_true_iff, !bool_decide_eq_true.
  assert (Hmem : forall name, name ∈ SUPPORTED_RECORD_TYPES ->
            (name ∈ map Py.upper
                      (filter (fun t => Py.upper t ∈ SUPPORTED_RECORD_TYPES) types) <->
             Exists (fun t => Py.upper t = name) types)).
  { intros name Hname. rewrite Exists_exists. split.
    - intros Hin. apply list_elem_of_In, in_map_iff in Hin as (t & <- & Hin).
      apply list_elem_of_In, list_elem_of_filter in Hin as [_ Hin]. eauto.
    - intros (t & Hin & <-). apply list_elem_of_In, in_map, list_elem_of_In.
      apply list_elem_of_filter. auto. }
  rewrite (Hmem "A"), (Hmem "AAAA")
    by (apply list_elem_of_In; cbn; tauto).
  rewrite !Exists_exists. split.
  - intros [(t & Hin & Ht)|(t & Hin & Ht)]; exists t; auto.
  - intros (t & Hin & [Ht|Ht]); [left|right]; eauto.
Qed.

(** X22.  The dns command prints an alias line exactly when A or AAAA is
    among the record types asked for (in any letter case), the
    canonical-name look-up succeeds, and the name it finds is not empty and
    differs from the hostname by more than letter case; the line then names
    that canonical name.  A look-up that fails, or a canonical name that is
    the hostname in another letter case, leaves no trace. *)
Theorem dns_alias_line ip_address gethostbyname_ex hostname types :
  Cli._validate_host ip_address hostname = ([], Returned hostname) ->
  (forall cname aliases addresses,
     Exists (fun t => Py.upper t = "A" \/ Py.upper t = "AAAA") (requested_types types) ->
     gethostbyname_ex hostname = Returned (cname, aliases, addresses) ->
     cname <> "" -> Py.lower cname <> Py.lower hostname ->
     In (alias_line hostname cname)
        (output (Cli.dns ip_address gethostbyname_ex lib hostname types))) /\
  ((exists shown, In (alias_line hostname shown)
                     (output (Cli.dns ip_address gethostbyname_ex lib hostname types))) ->
   Exists (fun t => Py.upper t = "A" \/ Py.upper t = "AAAA") (requested_types types) /\
   exists cname aliases addresses,
     gethostbyname_ex hostname = Returned (cname, aliases, addresses) /\
     cname <> "" /\ Py.lower cname <> Py.lower hostname).
Proof.
  intros Hhost.
  assert (Hreq : match types with
                 | None | Some [] => ["A"; "AAAA"; "MX"]
                 | Some types0 => types0
                 end = requested_types types) by (destruct types as [[|? ?]|]; reflexivity).
  unfold Cli.dns. rewrite Hhost, bind_silent, Hreq. clear Hreq.
  set (requested := requested_types types).
  set (valid := map Py.upper
                  (filter (fun t => Py.upper t ∈ SUPPORTED_RECORD_TYPES) requested)).
  split.
  - intros cname aliases addresses Haddr Hlookup Hne Hcase.
    pose proof (proj2 (valid_types_address requested) Haddr) as Hany.
    fold valid in Hany.
    assert (Hvalid : valid <> []).
    { intros E. rewrite E in Hany. cbn in Hany. discriminate. }
    match goal with |- In _ (output (bind ?m _)) =>
      assert (Hm : outcome m = Returned tt) end.
    { destruct (filter (fun t => Py.upper t ∉ SUPPORTED_RECORD_TYPES) requested)
        as [|bad bads]; [reflexivity|].
      unfold print_error, Display.print_error. rewrite bind_emit.
      destruct valid; [congruence|reflexivity]. }
    apply (in_output_bind_r _ _ tt); [exact Hm|].
    apply (in_output_bind_r _ _ tt); [destruct valid; [congruence|reflexivity]|].
    apply in_output_bind_l. rewrite Hany.
    unfold get_canonical_name. rewrite Hlookup.
    assert (Hdiff : negb (String.eqb cname hostname) = true).
    { apply negb_true_iff, String.eqb_neq. intros ->. congruence. }
    rewrite Hdiff. cbn [bind ret]. destruct cname as [|c r]; [congruence|].
    assert (Hl : negb (String.eqb (Py.lower (String c r)) (Py.lower hostname)) = true)
      by (apply negb_true_iff, String.eqb_neq; exact Hcase).
    rewrite Hl. left. reflexivity.
  - intros (shown & Hin).
    apply in_output_bind in Hin as [Hin|(u1 & _ & Hin)].
    { exfalso.
      destruct (filter (fun t => Py.upper t ∉ SUPPORTED_RECORD_TYPES) requested)
        as [|bad bads]; [destruct Hin|].
      apply in_output_bind in Hin as [Hin|(u & _ & Hin)];
        [destruct Hin as [H|[]]; discriminate|].
      destruct valid; cbn in Hin; [exact Hin|].
      destruct Hin as [H|[]]. discriminate. }
    apply in_output_bind in Hin as [Hin|(u2 & _ & Hin)].
    { exfalso. destruct valid; cbn in Hin; [|exact Hin].
      destruct Hin as [H|[]]. discriminate. }
    apply in_output_bind in Hin as [Hin|(u3 & _ & Hin)].
    + destruct (existsb _ _) eqn:Hany; [|destruct Hin].
      split; [apply valid_types_address, Hany|].
      apply in_output_bind in Hin as [Hin|(found & Hfound & Hin)].
      * exfalso. unfold get_canonical_name in Hin.
        destruct (gethostbyname_ex hostname) as [[[c ?] ?]|e]; [|destruct Hin].
        destruct (negb _); destruct Hin.
      * unfold get_canonical_name in Hfound.
        destruct (gethostbyname_ex hostname) as [[[c aliases] addresses]|e];
          [|cbn in Hfound; injection Hfound as <-; destruct Hin].
        destruct (negb (String.eqb c hostname));
          cbn in Hfound; injection Hfound as <-; [|destruct Hin].
        destruct c as [|c0 r]; [destruct Hin|].
        destruct (negb (String.eqb (Py.lower (String c0 r)) (Py.lower hostname))) eqn:Hl;
          [|destruct Hin].
        exists (String c0 r), aliases, addresses.
        split; [reflexivity|]. split; [discriminate|].
        apply String.eqb_neq, negb_true_iff, Hl.
    + exfalso. apply in_output_bind in Hin as [Hin|(u4 & _ & Hin)]; [|destruct Hin].
      apply (resolve_hostname_no_print _ _ _ Hin).
Qed.

End DnsAlias.

Lemma dns_alias_line_witness :
  In (alias_line "www.example.com" "example.com")
     (output (Cli.dns no_ip_literal sample_gethostbyname_ex sample_resolver
                "www.example.com" (Some ["mx"; "aaaa"]))).
Proof.
  apply (proj1 (dns_alias_line sample_resolver no_ip_literal sample_gethostbyname_ex
                  "www.example.com" (Some ["mx"; "aaaa"]) eq_refl)
           "example.com" ["www.example.com"] ["93.184.216.34"]).
  - apply Exists_cons_tl, Exists_cons_hd. right. reflexivity.
  - reflexivity.
  - discriminate.
  - discriminate.
Defined.

(** [EXAMPLE.com] is found for [example.com], and no alias line is printed. *)
Example dns_no_alias_for_letter_case :
  outcome (DnsUtils.get_canonical_name sample_gethostbyname_ex "example.com") =
    Returned (Some "EXAMPLE.com") /\
  output (Cli.dns no_ip_literal sample_gethostbyname_ex sample_resolver
            "example.com" (Some ["AAAA"])) =
    [Info "Performing DNS lookup for example.com, types: AAAA...";
     Query "example.com" "AAAA";
     Error "DNS query timed out for example.com, type AAAA.";
     Table "DNS Records for example.com" [("AAAA", "Timeout")]].
Proof. split; reflexivity. Qed.
